(** * YouTube downloader front end: a shallow embedding of [static/script.js]

    The class [YouTubeDownloader] is embedded as a record of its mutable
    fields together with the part of the page it writes to, and its methods
    as functions on that record.  The browser (interval timer, pending
    [fetch] promises, animation-frame callbacks, the clock read by
    [performance.now()]) is part of the same record, and one [step] per
    browser event runs the callback the script registered for it.

    JavaScript numbers are modelled by exact rationals [Q]: every number the
    script handles comes from a JSON payload or from a clock, and the
    arithmetic it does on them ([/], [%], [Math.floor], [Math.ceil],
    [Math.round], [Math.min], [toFixed]) is modelled by its exact
    counterpart.  Strings are [string]s of 8-bit code units. *)

From Stdlib Require Import QArith Qround ZArith String Ascii List Bool Lia Lqa.
From Stdlib Require Import DecimalString.
Import ListNotations.

Open Scope string_scope.
Open Scope Q_scope.

(* ================================================================== *)
(** ** JavaScript primitives used by the script *)

Definition Qltb (a b : Q) : bool := negb (Qle_bool b a).

(** [Math.min(a, b)] *)
Definition Math_min (a b : Q) : Q := if Qle_bool a b then a else b.

(** [Math.floor], [Math.ceil], [Math.round] (halves go up). *)
Definition Math_floor (x : Q) : Z := Qfloor x.
Definition Math_ceil (x : Q) : Z := Qceiling x.
Definition Math_round (x : Q) : Z := Qfloor (x + (1 # 2)).

(** [Math.pow(x, 3)] *)
Definition Math_pow3 (x : Q) : Q := x * x * x.

(** [x % m]: the remainder has the sign of the dividend. *)
Definition Qtrunc (x : Q) : Z := if Qle_bool 0 x then Qfloor x else Qceiling x.
Definition js_rem (x m : Q) : Q := x - m * inject_Z (Qtrunc (x / m)).

(** Decimal rendering of an integer-valued number ([n + 's'], [textContent]).
    Whole numbers are exact here at any size; those of the script are exact
    up to 2^53 and rounded beyond, where the two part. *)
Definition Z_str (z : Z) : string := NilZero.string_of_int (Z.to_int z).

(** [x.toFixed(1)]: sign, then the integer [n] for which [n / 10] is closest
    to [|x|] (the larger one on a tie), printed with one decimal. *)
Definition toFixed1 (x : Q) : string :=
  let neg := Qltb x 0 in
  let a := if neg then - x else x in
  let n := Qfloor (a * 10 + (1 # 2)) in
  (if neg then "-" else "") ++ Z_str (n / 10) ++ "." ++ Z_str (n mod 10).

(** A number read from a JSON payload or passed as an argument: [None] is
    [undefined] / [null]. *)
Definition num_falsy (x : option Q) : bool :=
  match x with
  | None => true
  | Some q => Qeq_bool q 0
  end.

(** [s || d] on a string-valued field: the empty string is falsy too. *)
Definition str_or (s : option string) (d : string) : string :=
  match s with
  | Some (String c r) => String c r
  | _ => d
  end.

Definition str_truthy (s : option string) : bool :=
  match s with
  | Some (String _ _) => true
  | _ => false
  end.

(* ================================================================== *)
(** ** [formatSpeed] and [formatTime] *)

Definition units : list string := ["B/s"; "KB/s"; "MB/s"; "GB/s"].

(** The loop [while (speed >= 1024 && unitIndex < units.length - 1)]. *)
Fixpoint speed_loop (fuel : nat) (speed : Q) (unitIndex : nat) : Q * nat :=
  match fuel with
  | O => (speed, unitIndex)
  | S fuel' =>
      if Qle_bool 1024 speed && (unitIndex <? length units - 1)%nat
      then speed_loop fuel' (speed / 1024) (S unitIndex)
      else (speed, unitIndex)
  end.

Definition formatSpeed (bytesPerSecond : option Q) : string :=
  match bytesPerSecond with
  | None => "0 B/s"
  | Some b =>
      if num_falsy (Some b) then "0 B/s"
      else
        let '(speed, unitIndex) := speed_loop (length units) b 0 in
        toFixed1 speed ++ " " ++ nth unitIndex units "undefined"
  end.

Definition formatTime (seconds : option Q) : string :=
  match seconds with
  | None => "0s"
  | Some s =>
      if num_falsy (Some s) || Qltb s 0 then "0s"
      else if Qltb s 60 then Z_str (Math_ceil s) ++ "s"
      else if Qltb s 3600 then
        let mins := Math_floor (s / 60) in
        let secs := Math_ceil (js_rem s 60) in
        Z_str mins ++ "m " ++ Z_str secs ++ "s"
      else
        let hours := Math_floor (s / 3600) in
        let mins := Math_floor (js_rem s 3600 / 60) in
        Z_str hours ++ "h " ++ Z_str mins ++ "m"
  end.

(* ================================================================== *)
(** ** [isValidYouTubeUrl] *)

(** The fragment of regular expressions the four patterns are written in.
    Every pattern is anchored at the start ([^]) and not at the end. *)
Inductive regex : Type :=
| Lit (s : string)              (* a run of literal characters *)
| Opt (r : regex)               (* r? *)
| Plus (cls : ascii -> bool)    (* [cls]+ *)
| Seq (r1 r2 : regex).

Declare Scope regex_scope.
Delimit Scope regex_scope with re.
Bind Scope regex_scope with regex.
Notation "r1 ;; r2" := (Seq r1 r2) (at level 61, right associativity) : regex_scope.

Fixpoint strip_prefix (p s : string) : option string :=
  match p, s with
  | EmptyString, _ => Some s
  | String a p', String b s' => if Ascii.eqb a b then strip_prefix p' s' else None
  | String _ _, EmptyString => None
  end.

(** What can remain of [s] after one or more characters of the class. *)
Fixpoint plus_residuals (cls : ascii -> bool) (s : string) : list string :=
  match s with
  | EmptyString => []
  | String c s' => if cls c then plus_residuals cls s' ++ [s'] else []
  end.

(** What can remain of [s] after a match of [r] at its start. *)
Fixpoint residuals (r : regex) (s : string) : list string :=
  match r with
  | Lit p => match strip_prefix p s with Some t => [t] | None => [] end
  | Opt r' => residuals r' s ++ [s]
  | Plus cls => plus_residuals cls s
  | Seq r1 r2 => flat_map (residuals r2) (residuals r1 s)
  end.

(** [/^r/.test(s)] *)
Definition regex_test (r : regex) (s : string) : bool :=
  match residuals r s with
  | [] => false
  | _ :: _ => true
  end.

Definition in_range (lo hi : nat) (c : ascii) : bool :=
  let n := nat_of_ascii c in ((lo <=? n) && (n <=? hi))%nat.

(** [\w] is [A-Za-z0-9_]. *)
Definition is_word (c : ascii) : bool :=
  in_range 65 90 c || in_range 97 122 c || in_range 48 57 c || Ascii.eqb c "_".

(** [[\w-]] *)
Definition is_id_char (c : ascii) : bool := is_word c || Ascii.eqb c "-".

Definition pattern_watch : regex :=
  (Lit "http" ;; Opt (Lit "s") ;; Lit "://" ;; Opt (Lit "www.") ;;
   Lit "youtube.com/watch?v=" ;; Plus is_id_char)%re.
Definition pattern_short : regex :=
  (Lit "http" ;; Opt (Lit "s") ;; Lit "://" ;;
   Lit "youtu.be/" ;; Plus is_id_char)%re.
Definition pattern_shorts : regex :=
  (Lit "http" ;; Opt (Lit "s") ;; Lit "://" ;; Opt (Lit "www.") ;;
   Lit "youtube.com/shorts/" ;; Plus is_id_char)%re.
Definition pattern_embed : regex :=
  (Lit "http" ;; Opt (Lit "s") ;; Lit "://" ;; Opt (Lit "www.") ;;
   Lit "youtube.com/embed/" ;; Plus is_id_char)%re.

Definition patterns : list regex :=
  [pattern_watch; pattern_short; pattern_shorts; pattern_embed].

(** White space removed by [String.prototype.trim], among 8-bit code units. *)
Definition is_space (c : ascii) : bool :=
  let n := nat_of_ascii c in
  ((9 <=? n) && (n <=? 13) || (n =? 32) || (n =? 160))%nat.

Fixpoint drop_spaces (l : list ascii) : list ascii :=
  match l with
  | [] => []
  | c :: l' => if is_space c then drop_spaces l' else l
  end.

Definition trim (s : string) : string :=
  string_of_list_ascii
    (rev (drop_spaces (rev (drop_spaces (list_ascii_of_string s))))).

Definition is_empty (s : string) : bool :=
  match s with EmptyString => true | String _ _ => false end.

Definition isValidYouTubeUrl (url : string) : bool :=
  if is_empty url || is_empty (trim url) then false
  else existsb (fun pattern => regex_test pattern url) patterns.

(** The locator shapes in words: a scheme, an optional [www.], one of the
    four fixed paths, and an identifier of at least one word character or
    hyphen.  Two readings are written out.  In [locator_shape] the shape
    fixes how the string begins and any text [rest] may follow the
    identifier; this is what the patterns, which have no [$], test.  In
    [exact_locator], further down, the identifier is trailing: it ends the
    string. *)
Definition is_scheme (s : string) : Prop := s = "http" \/ s = "https".
Definition is_www (s : string) : Prop := s = "" \/ s = "www.".

Fixpoint all_chars (p : ascii -> bool) (s : string) : bool :=
  match s with
  | EmptyString => true
  | String c s' => p c && all_chars p s'
  end.

Definition identifier (id : string) : Prop :=
  id <> "" /\ all_chars is_id_char id = true.

Inductive locator_shape : string -> Prop :=
| watch_page_link scheme www id rest :
    is_scheme scheme -> is_www www -> identifier id ->
    locator_shape (scheme ++ "://" ++ www ++ "youtube.com/watch?v=" ++ id ++ rest)
| short_link scheme id rest :
    is_scheme scheme -> identifier id ->
    locator_shape (scheme ++ "://" ++ "youtu.be/" ++ id ++ rest)
| shorts_link scheme www id rest :
    is_scheme scheme -> is_www www -> identifier id ->
    locator_shape (scheme ++ "://" ++ www ++ "youtube.com/shorts/" ++ id ++ rest)
| embed_link scheme www id rest :
    is_scheme scheme -> is_www www -> identifier id ->
    locator_shape (scheme ++ "://" ++ www ++ "youtube.com/embed/" ++ id ++ rest).

Definition whitespace_only (s : string) : Prop := all_chars is_space s = true.

(** The locator shapes with a trailing identifier: nothing follows it. *)
Inductive exact_locator : string -> Prop :=
| exact_watch_page scheme www id :
    is_scheme scheme -> is_www www -> identifier id ->
    exact_locator (scheme ++ "://" ++ www ++ "youtube.com/watch?v=" ++ id)
| exact_short scheme id :
    is_scheme scheme -> identifier id ->
    exact_locator (scheme ++ "://" ++ "youtu.be/" ++ id)
| exact_shorts scheme www id :
    is_scheme scheme -> is_www www -> identifier id ->
    exact_locator (scheme ++ "://" ++ www ++ "youtube.com/shorts/" ++ id)
| exact_embed scheme www id :
    is_scheme scheme -> is_www www -> identifier id ->
    exact_locator (scheme ++ "://" ++ www ++ "youtube.com/embed/" ++ id).

Fixpoint last_char (s : string) : option ascii :=
  match s with
  | EmptyString => None
  | String c r =>
      match r with
      | EmptyString => Some c
      | String _ _ => last_char r
      end
  end.

(** The call [this.isValidYouTubeUrl(url)] in state-passing style: the
    value returned and the object after the call.  The method reads no field
    of the object and assigns none. *)
Definition call_isValidYouTubeUrl {state : Type} (url : string) (this : state)
  : bool * state :=
  (isValidYouTubeUrl url, this).

(** The words of a regular expression, for reasoning about [residuals]. *)
Fixpoint lang (r : regex) (w : string) : Prop :=
  match r with
  | Lit p => w = p
  | Opt r' => w = "" \/ lang r' w
  | Plus cls => w <> "" /\ all_chars cls w = true
  | Seq r1 r2 => exists u v, w = u ++ v /\ lang r1 u /\ lang r2 v
  end.


(* ================================================================== *)
(** ** Payloads of the two endpoints *)

(** Body of a [GET /api/status/{task_id}] response. *)
Record snapshot : Type := {
  status : option string;
  progress : option Q;
  speed : option Q;
  eta : option Q;
  filename : option string;
  error : option string
}.

(** Body of a [POST /api/download] response. *)
Record submit_body : Type := {
  task_id : option string;
  sb_message : option string;
  sb_error : option string
}.

(** What [await response.json()] yields: the parsed payload, or a rejection
    carrying the parser's message. *)
Inductive body (A : Type) : Type :=
| Json (data : A)
| NotJson (message : string).
Arguments Json {A} data.
Arguments NotJson {A} message.

(** How a [fetch] settles: the promise rejects (network error), or resolves
    with a response whose [ok] flag tells a 2xx status. *)
Inductive fetch_result (A : Type) : Type :=
| Rejected (message : string)
| Responded (ok : bool) (b : body A).
Arguments Rejected {A} message.
Arguments Responded {A} ok b.

(* ================================================================== *)
(** ** The downloader object, the page and the browser *)

Inductive container : Type :=
| NoContainer | ProgressContainer | ErrorContainer | ResultContainer.

(** One run of [animatePercentage]: the variables its [animate] closure
    captured. *)
Record animation : Type := {
  startPercent : Q;
  targetPercent : Q;
  startTime : Q
}.

#[projections(primitive)] Record downloader : Type := {
  (* fields of the object *)
  lastPercent : Q;
  currentTaskId : option string;
  pollInterval : option nat;
  (* the page *)
  visible : container;
  progressFillWidth : Q;             (* style.width, in percent *)
  progressStatus : string;
  progressPercent : Z;               (* the number written as textContent *)
  progressInfo : string;
  errorMessage : string;
  resultFilename : string;
  downloadHref : option string;      (* the task id put after /download/ *)
  submitDisabled : bool;
  (* the browser *)
  now : Q;                           (* performance.now() *)
  timersCreated : nat;               (* handles given out by setInterval *)
  statusFetches : list string;       (* pending GET /api/status/<id> *)
  submissions : list (string * string * string);  (* pending POSTs *)
  frameCallbacks : list animation;   (* registered with requestAnimationFrame *)
  console : list string;             (* console.error *)
  errorsShown : list string          (* history: arguments of showError *)
}.

(** Functional record update, one setter per field that the script writes. *)
Definition set_lastPercent (v : Q) (d : downloader) : downloader :=
  {| lastPercent := v; currentTaskId := currentTaskId d; pollInterval := pollInterval d;
     visible := visible d; progressFillWidth := progressFillWidth d;
     progressStatus := progressStatus d; progressPercent := progressPercent d;
     progressInfo := progressInfo d; errorMessage := errorMessage d;
     resultFilename := resultFilename d; downloadHref := downloadHref d;
     submitDisabled := submitDisabled d; now := now d; timersCreated := timersCreated d;
     statusFetches := statusFetches d; submissions := submissions d;
     frameCallbacks := frameCallbacks d; console := console d;
     errorsShown := errorsShown d |}.
Definition set_currentTaskId (v : option string) (d : downloader) : downloader :=
  {| lastPercent := lastPercent d; currentTaskId := v; pollInterval := pollInterval d;
     visible := visible d; progressFillWidth := progressFillWidth d;
     progressStatus := progressStatus d; progressPercent := progressPercent d;
     progressInfo := progressInfo d; errorMessage := errorMessage d;
     resultFilename := resultFilename d; downloadHref := downloadHref d;
     submitDisabled := submitDisabled d; now := now d; timersCreated := timersCreated d;
     statusFetches := statusFetches d; submissions := submissions d;
     frameCallbacks := frameCallbacks d; console := console d;
     errorsShown := errorsShown d |}.
Definition set_pollInterval (v : option nat) (d : downloader) : downloader :=
  {| lastPercent := lastPercent d; currentTaskId := currentTaskId d; pollInterval := v;
     visible := visible d; progressFillWidth := progressFillWidth d;
     progressStatus := progressStatus d; progressPercent := progressPercent d;
     progressInfo := progressInfo d; errorMessage := errorMessage d;
     resultFilename := resultFilename d; downloadHref := downloadHref d;
     submitDisabled := submitDisabled d; now := now d; timersCreated := timersCreated d;
     statusFetches := statusFetches d; submissions := submissions d;
     frameCallbacks := frameCallbacks d; console := console d;
     errorsShown := errorsShown d |}.
Definition set_visible (v : container) (d : downloader) : downloader :=
  {| lastPercent := lastPercent d; currentTaskId := currentTaskId d;
     pollInterval := pollInterval d;
     visible := v; progressFillWidth := progressFillWidth d;
     progressStatus := progressStatus d; progressPercent := progressPercent d;
     progressInfo := progressInfo d; errorMessage := errorMessage d;
     resultFilename := resultFilename d; downloadHref := downloadHref d;
     submitDisabled := submitDisabled d; now := now d; timersCreated := timersCreated d;
     statusFetches := statusFetches d; submissions := submissions d;
     frameCallbacks := frameCallbacks d; console := console d;
     errorsShown := errorsShown d |}.
Definition set_progressFillWidth (v : Q) (d : downloader) : downloader :=
  {| lastPercent := lastPercent d; currentTaskId := currentTaskId d;
     pollInterval := pollInterval d;
     visible := visible d; progressFillWidth := v;
     progressStatus := progressStatus d; progressPercent := progressPercent d;
     progressInfo := progressInfo d; errorMessage := errorMessage d;
     resultFilename := resultFilename d; downloadHref := downloadHref d;
     submitDisabled := submitDisabled d; now := now d; timersCreated := timersCreated d;
     statusFetches := statusFetches d; submissions := submissions d;
     frameCallbacks := frameCallbacks d; console := console d;
     errorsShown := errorsShown d |}.
Definition set_progressStatus (v : string) (d : downloader) : downloader :=
  {| lastPercent := lastPercent d; currentTaskId := currentTaskId d;
     pollInterval := pollInterval d;
     visible := visible d; progressFillWidth := progressFillWidth d;
     progressStatus := v; progressPercent := progressPercent d;
     progressInfo := progressInfo d; errorMessage := errorMessage d;
     resultFilename := resultFilename d; downloadHref := downloadHref d;
     submitDisabled := submitDisabled d; now := now d; timersCreated := timersCreated d;
     statusFetches := statusFetches d; submissions := submissions d;
     frameCallbacks := frameCallbacks d; console := console d;
     errorsShown := errorsShown d |}.
Definition set_progressPercent (v : Z) (d : downloader) : downloader :=
  {| lastPercent := lastPercent d; currentTaskId := currentTaskId d;
     pollInterval := pollInterval d;
     visible := visible d; progressFillWidth := progressFillWidth d;
     progressStatus := progressStatus d; progressPercent := v;
     progressInfo := progressInfo d; errorMessage := errorMessage d;
     resultFilename := resultFilename d; downloadHref := downloadHref d;
     submitDisabled := submitDisabled d; now := now d; timersCreated := timersCreated d;
     statusFetches := statusFetches d; submissions := submissions d;
     frameCallbacks := frameCallbacks d; console := console d;
     errorsShown := errorsShown d |}.
Definition set_progressInfo (v : string) (d : downloader) : downloader :=
  {| lastPercent := lastPercent d; currentTaskId := currentTaskId d;
     pollInterval := pollInterval d;
     visible := visible d; progressFillWidth := progressFillWidth d;
     progressStatus := progressStatus d; progressPercent := progressPercent d;
     progressInfo := v; errorMessage := errorMessage d;
     resultFilename := resultFilename d; downloadHref := downloadHref d;
     submitDisabled := submitDisabled d; now := now d; timersCreated := timersCreated d;
     statusFetches := statusFetches d; submissions := submissions d;
     frameCallbacks := frameCallbacks d; console := console d;
     errorsShown := errorsShown d |}.
Definition set_errorMessage (v : string) (d : downloader) : downloader :=
  {| lastPercent := lastPercent d; currentTaskId := currentTaskId d;
     pollInterval := pollInterval d;
     visible := visible d; progressFillWidth := progressFillWidth d;
     progressStatus := progressStatus d; progressPercent := progressPercent d;
     progressInfo := progressInfo d; errorMessage := v;
     resultFilename := resultFilename d; downloadHref := downloadHref d;
     submitDisabled := submitDisabled d; now := now d; timersCreated := timersCreated d;
     statusFetches := statusFetches d; submissions := submissions d;
     frameCallbacks := frameCallbacks d; console := console d;
     errorsShown := errorsShown d |}.
Definition set_errorsShown (v : list string) (d : downloader) : downloader :=
  {| lastPercent := lastPercent d; currentTaskId := currentTaskId d;
     pollInterval := pollInterval d;
     visible := visible d; progressFillWidth := progressFillWidth d;
     progressStatus := progressStatus d; progressPercent := progressPercent d;
     progressInfo := progressInfo d; errorMessage := errorMessage d;
     resultFilename := resultFilename d; downloadHref := downloadHref d;
     submitDisabled := submitDisabled d; now := now d; timersCreated := timersCreated d;
     statusFetches := statusFetches d; submissions := submissions d;
     frameCallbacks := frameCallbacks d; console := console d;
     errorsShown := v |}.
Definition set_result (name : string) (href : option string) (d : downloader) : downloader :=
  {| lastPercent := lastPercent d; currentTaskId := currentTaskId d;
     pollInterval := pollInterval d;
     visible := visible d; progressFillWidth := progressFillWidth d;
     progressStatus := progressStatus d; progressPercent := progressPercent d;
     progressInfo := progressInfo d; errorMessage := errorMessage d;
     resultFilename := name; downloadHref := href;
     submitDisabled := submitDisabled d; now := now d; timersCreated := timersCreated d;
     statusFetches := statusFetches d; submissions := submissions d;
     frameCallbacks := frameCallbacks d; console := console d;
     errorsShown := errorsShown d |}.
Definition set_submitDisabled (v : bool) (d : downloader) : downloader :=
  {| lastPercent := lastPercent d; currentTaskId := currentTaskId d;
     pollInterval := pollInterval d;
     visible := visible d; progressFillWidth := progressFillWidth d;
     progressStatus := progressStatus d; progressPercent := progressPercent d;
     progressInfo := progressInfo d; errorMessage := errorMessage d;
     resultFilename := resultFilename d; downloadHref := downloadHref d;
     submitDisabled := v; now := now d; timersCreated := timersCreated d;
     statusFetches := statusFetches d; submissions := submissions d;
     frameCallbacks := frameCallbacks d; console := console d;
     errorsShown := errorsShown d |}.
Definition set_now (v : Q) (d : downloader) : downloader :=
  {| lastPercent := lastPercent d; currentTaskId := currentTaskId d;
     pollInterval := pollInterval d;
     visible := visible d; progressFillWidth := progressFillWidth d;
     progressStatus := progressStatus d; progressPercent := progressPercent d;
     progressInfo := progressInfo d; errorMessage := errorMessage d;
     resultFilename := resultFilename d; downloadHref := downloadHref d;
     submitDisabled := submitDisabled d; now := v; timersCreated := timersCreated d;
     statusFetches := statusFetches d; submissions := submissions d;
     frameCallbacks := frameCallbacks d; console := console d;
     errorsShown := errorsShown d |}.
Definition set_timersCreated (v : nat) (d : downloader) : downloader :=
  {| lastPercent := lastPercent d; currentTaskId := currentTaskId d;
     pollInterval := pollInterval d;
     visible := visible d; progressFillWidth := progressFillWidth d;
     progressStatus := progressStatus d; progressPercent := progressPercent d;
     progressInfo := progressInfo d; errorMessage := errorMessage d;
     resultFilename := resultFilename d; downloadHref := downloadHref d;
     submitDisabled := submitDisabled d; now := now d; timersCreated := v;
     statusFetches := statusFetches d; submissions := submissions d;
     frameCallbacks := frameCallbacks d; console := console d;
     errorsShown := errorsShown d |}.
Definition set_statusFetches (v : list string) (d : downloader) : downloader :=
  {| lastPercent := lastPercent d; currentTaskId := currentTaskId d;
     pollInterval := pollInterval d;
     visible := visible d; progressFillWidth := progressFillWidth d;
     progressStatus := progressStatus d; progressPercent := progressPercent d;
     progressInfo := progressInfo d; errorMessage := errorMessage d;
     resultFilename := resultFilename d; downloadHref := downloadHref d;
     submitDisabled := submitDisabled d; now := now d; timersCreated := timersCreated d;
     statusFetches := v; submissions := submissions d;
     frameCallbacks := frameCallbacks d; console := console d;
     errorsShown := errorsShown d |}.
Definition set_submissions (v : list (string * string * string)) (d : downloader)
  : downloader :=
  {| lastPercent := lastPercent d; currentTaskId := currentTaskId d;
     pollInterval := pollInterval d;
     visible := visible d; progressFillWidth := progressFillWidth d;
     progressStatus := progressStatus d; progressPercent := progressPercent d;
     progressInfo := progressInfo d; errorMessage := errorMessage d;
     resultFilename := resultFilename d; downloadHref := downloadHref d;
     submitDisabled := submitDisabled d; now := now d; timersCreated := timersCreated d;
     statusFetches := statusFetches d; submissions := v;
     frameCallbacks := frameCallbacks d; console := console d;
     errorsShown := errorsShown d |}.
Definition set_frameCallbacks (v : list animation) (d : downloader) : downloader :=
  {| lastPercent := lastPercent d; currentTaskId := currentTaskId d;
     pollInterval := pollInterval d;
     visible := visible d; progressFillWidth := progressFillWidth d;
     progressStatus := progressStatus d; progressPercent := progressPercent d;
     progressInfo := progressInfo d; errorMessage := errorMessage d;
     resultFilename := resultFilename d; downloadHref := downloadHref d;
     submitDisabled := submitDisabled d; now := now d; timersCreated := timersCreated d;
     statusFetches := statusFetches d; submissions := submissions d;
     frameCallbacks := v; console := console d;
     errorsShown := errorsShown d |}.
Definition set_console (v : list string) (d : downloader) : downloader :=
  {| lastPercent := lastPercent d; currentTaskId := currentTaskId d;
     pollInterval := pollInterval d;
     visible := visible d; progressFillWidth := progressFillWidth d;
     progressStatus := progressStatus d; progressPercent := progressPercent d;
     progressInfo := progressInfo d; errorMessage := errorMessage d;
     resultFilename := resultFilename d; downloadHref := downloadHref d;
     submitDisabled := submitDisabled d; now := now d; timersCreated := timersCreated d;
     statusFetches := statusFetches d; submissions := submissions d;
     frameCallbacks := frameCallbacks d; console := v;
     errorsShown := errorsShown d |}.

(** The object as the constructor leaves it, on a page that shows none of
    the three containers. *)
Definition initial : downloader :=
  {| lastPercent := 0; currentTaskId := None; pollInterval := None;
     visible := NoContainer; progressFillWidth := 0;
     progressStatus := "Preparing..."; progressPercent := 0%Z;
     progressInfo := ""; errorMessage := "";
     resultFilename := ""; downloadHref := None;
     submitDisabled := false; now := 0; timersCreated := O;
     statusFetches := []; submissions := [];
     frameCallbacks := []; console := [];
     errorsShown := [] |}.

(* ================================================================== *)
(** ** Methods of [YouTubeDownloader] *)

Definition hideAllContainers (d : downloader) : downloader :=
  set_visible NoContainer d.

Definition showError (message : string) (d : downloader) : downloader :=
  let d := hideAllContainers d in
  let d := set_visible ErrorContainer d in
  let d := set_errorMessage message d in
  set_errorsShown (errorsShown d ++ [message]) d.

Definition showProgress (d : downloader) : downloader :=
  set_visible ProgressContainer (hideAllContainers d).

Definition showResult (data : snapshot) (d : downloader) : downloader :=
  let d := hideAllContainers d in
  let d := set_visible ResultContainer d in
  set_result (str_or (filename data) "Download ready") (currentTaskId d) d.

Definition setLoadingState (loading : bool) (d : downloader) : downloader :=
  set_submitDisabled loading d.

Definition stopPolling (d : downloader) : downloader :=
  match pollInterval d with
  | Some _ => set_pollInterval None d
  | None => d
  end.

Definition resetUI (d : downloader) : downloader :=
  let d := hideAllContainers d in
  let d := set_progressFillWidth 0 d in
  let d := set_progressStatus "Preparing..." d in
  let d := set_progressPercent 0%Z d in
  let d := set_progressInfo "" d in
  let d := set_lastPercent 0 d in
  let d := set_currentTaskId None d in
  stopPolling d.

(** [animatePercentage]: captures [lastPercent] and the clock, and asks for a
    frame. *)
Definition animatePercentage (targetPercent : Q) (d : downloader) : downloader :=
  let a := {| startPercent := lastPercent d;
              targetPercent := targetPercent;
              startTime := now d |} in
  set_frameCallbacks (frameCallbacks d ++ [a]) d.

Definition duration : Q := 300.

(** The value [animate] writes at time [currentTime], and whether it is the
    last frame of the animation. *)
Definition anim_progress (a : animation) (currentTime : Q) : Q :=
  let elapsed := currentTime - startTime a in
  Math_min (elapsed / duration) 1.

Definition easeOut (progress : Q) : Q := 1 - Math_pow3 (1 - progress).

Definition currentPercent (a : animation) (currentTime : Q) : Z :=
  Math_round (startPercent a
              + (targetPercent a - startPercent a)
                * easeOut (anim_progress a currentTime)).

(** One call of the closure [animate(currentTime)]. *)
Definition animate (a : animation) (currentTime : Q) (d : downloader) : downloader :=
  let d := set_progressPercent (currentPercent a currentTime) d in
  if Qltb (anim_progress a currentTime) 1
  then set_frameCallbacks (frameCallbacks d ++ [a]) d
  else set_lastPercent (targetPercent a) d.

(** The separator of the info line, as the bytes of the source file have it. *)
Definition separator : string :=
  string_of_list_ascii
    (map ascii_of_nat [32; 195; 162; 226; 130; 172; 194; 162; 32]%nat).

Definition status_text (s : option string) : string :=
  let statusText := str_or s "processing" in
  if String.eqb statusText "downloading" then "Downloading..."
  else if String.eqb statusText "processing" then "Processing..."
  else statusText.

Definition info_text (data : snapshot) : string :=
  match speed data with
  | Some sp =>
      if negb (num_falsy (Some sp)) && Qltb 0 sp then
        let speed := formatSpeed (Some sp) in
        let eta := if num_falsy (eta data) then "" else formatTime (eta data) in
        if is_empty eta then speed
        else speed ++ separator ++ eta ++ " remaining"
      else ""
  | None => ""
  end.

(** [data.progress || 0] *)
Definition progress_or_0 (data : snapshot) : Q :=
  match progress data with
  | Some p => p
  | None => 0
  end.

Definition updateProgress (data : snapshot) (d : downloader) : downloader :=
  let progress := Math_min (progress_or_0 data) 100 in
  let d := animatePercentage progress d in
  let d := set_progressFillWidth progress d in
  let d := set_progressStatus (status_text (status data)) d in
  set_progressInfo (info_text data) d.

(** [startPolling]: the [setInterval] call; the callback it registers is
    [tick] below. *)
Definition startPolling (d : downloader) : downloader :=
  let d := match pollInterval d with
           | Some _ => set_pollInterval None d   (* clearInterval *)
           | None => d
           end in
  let h := S (timersCreated d) in
  set_pollInterval (Some h) (set_timersCreated h d).

(** The interval callback up to its first [await]: the guard, then the
    status request. *)
Definition tick (d : downloader) : downloader :=
  match currentTaskId d with
  | Some (String c r) =>
      set_statusFetches (statusFetches d ++ [String c r]) d
  | _ => stopPolling d
  end.

(** The rest of the interval callback, run when the request settles. *)
Definition poll_continue (r : fetch_result snapshot) (d : downloader) : downloader :=
  match r with
  | Rejected message => set_console (console d ++ [message]) d
  | Responded _ (NotJson message) => set_console (console d ++ [message]) d
  | Responded true (Json data) =>
      let d := updateProgress data d in
      match status data with
      | Some st =>
          if String.eqb st "completed" then
            setLoadingState false (showResult data (stopPolling d))
          else if String.eqb st "error" then
            setLoadingState false
              (showError (str_or (error data) "Download failed") (stopPolling d))
          else d
      | None => d
      end
  | Responded false (Json _) =>
      setLoadingState false (showError "Download task expired" (stopPolling d))
  end.

(** [handleSubmit] up to [await fetch('/api/download', ...)]. *)
Definition handleSubmit (url formatType quality : string) (d : downloader)
  : downloader :=
  if negb (isValidYouTubeUrl url) then
    showError "Please enter a valid YouTube URL" d
  else
    let d := resetUI d in
    let d := setLoadingState true d in
    set_submissions (submissions d ++ [(url, formatType, quality)]) d.

(** The message of the [Error] thrown on a response that is not [ok]. *)
Definition failure_message (data : submit_body) : string :=
  str_or (sb_message data) (str_or (sb_error data) "Download failed").

(** The rest of [handleSubmit], run when the request settles. *)
Definition submit_continue (r : fetch_result submit_body) (d : downloader)
  : downloader :=
  let catch message d := setLoadingState false (showError message d) in
  match r with
  | Rejected message => catch message d
  | Responded _ (NotJson message) => catch message d
  | Responded false (Json data) => catch (failure_message data) d
  | Responded true (Json data) =>
      let d := set_currentTaskId (task_id data) d in
      let d := showProgress d in
      startPolling d
  end.

(* ================================================================== *)
(** ** Browser events *)

Inductive event : Type :=
| Submit (url formatType quality : string)      (* the form is submitted *)
| SubmitSettles (i : nat) (r : fetch_result submit_body)
| Tick                                          (* the interval fires *)
| StatusSettles (i : nat) (r : fetch_result snapshot)
| Frame                                         (* animation frame callbacks run *)
| Elapse (dt : Q).                              (* time passes *)

Fixpoint remove_nth {A : Type} (i : nat) (l : list A) : list A :=
  match i, l with
  | _, [] => []
  | O, _ :: l' => l'
  | S i', x :: l' => x :: remove_nth i' l'
  end.

(** A frame: the callbacks registered so far are taken off the list and run
    in order with the frame's time stamp. *)
Definition run_frame (d : downloader) : downloader :=
  let callbacks := frameCallbacks d in
  fold_left (fun d a => animate a (now d) d) callbacks (set_frameCallbacks [] d).

Definition step (d : downloader) (e : event) : downloader :=
  match e with
  | Submit url formatType quality =>
      (* a disabled submit button blocks the form *)
      if submitDisabled d then d else handleSubmit url formatType quality d
  | SubmitSettles i r =>
      match nth_error (submissions d) i with
      | Some _ => submit_continue r (set_submissions (remove_nth i (submissions d)) d)
      | None => d
      end
  | Tick =>
      match pollInterval d with
      | Some _ => tick d
      | None => d                                (* a cleared timer never fires *)
      end
  | StatusSettles i r =>
      match nth_error (statusFetches d) i with
      | Some _ => poll_continue r (set_statusFetches (remove_nth i (statusFetches d)) d)
      | None => d
      end
  | Frame => run_frame d
  | Elapse dt => if Qle_bool 0 dt then set_now (now d + dt) d else d
  end.

Definition run (d : downloader) (trace : list event) : downloader :=
  fold_left step trace d.

(* ================================================================== *)
(** ** Vocabulary of the properties *)

(** What the user sees. *)
Definition page (d : downloader) :=
  (visible d, progressFillWidth d, progressStatus d, progressPercent d,
   progressInfo d, errorMessage d, resultFilename d, downloadHref d,
   submitDisabled d).

(** The failure message read with "present" taken literally: the [message]
    field if the body has one, otherwise the [error] field if it has one,
    otherwise the default. *)
Definition stated_message (data : submit_body) : string :=
  match sb_message data with
  | Some m => m
  | None =>
      match sb_error data with
      | Some e => e
      | None => "Download failed"
      end
  end.

(** Events of the clock and the renderer only. *)
Definition clock_event (e : event) : Prop :=
  match e with
  | Frame => True
  | Elapse _ => True
  | _ => False
  end.

(** The percentage a status event asks the page to show, if it shows one. *)
Definition event_target (e : event) : option Q :=
  match e with
  | StatusSettles _ (Responded true (Json data)) =>
      Some (Math_min (progress_or_0 data) 100)
  | _ => None
  end.

(** The progress value of the snapshot a status event applies, if it
    applies one. *)
Definition event_progress (e : event) : option Q :=
  match e with
  | StatusSettles _ (Responded true (Json data)) => Some (progress_or_0 data)
  | _ => None
  end.

(** The part of the state the percentage display depends on. *)
Definition shown (d : downloader) : Z * Q * Q * list animation * Q :=
  (progressPercent d, progressFillWidth d, lastPercent d, frameCallbacks d, now d).

(** A running animation stays in a set [P] of percentages, and did not start
    in the future. *)
Definition anim_ok (P : Q -> Prop) (t : Q) (a : animation) : Prop :=
  P (startPercent a) /\ P (targetPercent a) /\ startTime a <= t.

(** Everything displayed, remembered or being animated is in [P] (the
    number shown is in [PZ]). *)
Definition shown_ok (P : Q -> Prop) (PZ : Z -> Prop)
  (s : Z * Q * Q * list animation * Q) : Prop :=
  let '(percent, width, last, frames, t) := s in
  PZ percent /\ P width /\ P last /\ Forall (anim_ok P t) frames.

Definition display_ok (P : Q -> Prop) (PZ : Z -> Prop) (d : downloader) : Prop :=
  shown_ok P PZ (shown d).

Definition event_ok (P : Q -> Prop) (e : event) : Prop :=
  match event_target e with
  | Some q => P q
  | None => True
  end.

Definition at_most_100 (q : Q) : Prop := q <= 100.
Definition at_least_0 (q : Q) : Prop := 0 <= q.


(** A state the page reaches in normal use, for the examples: task "t1" has
    been accepted and its first status request is on its way. *)
Definition accepted : submit_body :=
  {| task_id := Some "t1"; sb_message := None; sb_error := None |}.

Definition polling_t1 : downloader :=
  run initial [Submit "https://youtu.be/abc123" "video" "best";
               SubmitSettles 0 (Responded true (Json accepted));
               Tick].

Definition downloading (p : Q) : snapshot :=
  {| status := Some "downloading"; progress := Some p;
     speed := Some 1048576; eta := Some 30; filename := None; error := None |}.

Definition completed : snapshot :=
  {| status := Some "completed"; progress := Some 100;
     speed := None; eta := None; filename := Some "abc123.mp4"; error := None |}.

(** A failure body whose [message] field is present and empty. *)
Definition empty_message : submit_body :=
  {| task_id := None; sb_message := Some ""; sb_error := Some "Video unavailable" |}.

Definition accepted_t2 : submit_body :=
  {| task_id := Some "t2"; sb_message := None; sb_error := None |}.

(** Task "t1" ends while an earlier status request for it is still on its
    way; the user then submits again and the backend accepts task "t2". *)
Definition t2_with_stale_t1_fetch : downloader :=
  run polling_t1
      [Tick;
       StatusSettles 1 (Responded true (Json completed));
       Submit "https://youtu.be/xyz789" "audio" "best";
       SubmitSettles 0 (Responded true (Json accepted_t2))].

(* ================================================================== *)
(** ** The download button and further vocabulary *)

(** [handleDownload]: where the click sends the browser, if anywhere. *)
Definition handleDownload (d : downloader) : option string :=
  match currentTaskId d with
  | Some (String c r) => Some ("/download/" ++ String c r)
  | _ => None
  end.

(** The message [handleSubmit] ends up showing when the request settles in
    one of the ways that lead to its [catch] block. *)
Definition failure_shown (r : fetch_result submit_body) : option string :=
  match r with
  | Rejected message => Some message
  | Responded _ (NotJson message) => Some message
  | Responded false (Json data) => Some (failure_message data)
  | Responded true (Json _) => None
  end.

(** The two status values that end the polling. *)
Definition is_terminal (s : option string) : bool :=
  match s with
  | Some st => String.eqb st "completed" || String.eqb st "error"
  | None => false
  end.

(** Nothing is in flight and nothing can be started: no timer, no pending
    request, the progress view up and the submit button disabled. *)
Definition locked (d : downloader) : Prop :=
  submitDisabled d = true /\ pollInterval d = None /\
  statusFetches d = [] /\ submissions d = [] /\
  visible d = ProgressContainer.

(** While the result view is up, its link carries the current task id. *)
Definition link_agrees (d : downloader) : Prop :=
  visible d = ResultContainer -> downloadHref d = currentTaskId d.

(** The part of the state that frames and the clock never touch. *)
Definition control (d : downloader) :=
  (currentTaskId d, pollInterval d, visible d, downloadHref d,
   submitDisabled d, statusFetches d, submissions d,
   errorMessage d, resultFilename d, errorsShown d).

(* ================================================================== *)
(** * Properties *)

(** ** Numbers *)

Lemma Qltb_lt (a b : Q) : Qltb a b = true <-> a < b.
Proof.
  unfold Qltb. rewrite negb_true_iff.
  destruct (Qle_bool b a) eqn:E.
  - apply Qle_bool_iff in E. split; [discriminate | intro; exfalso; lra].
  - split; [intros _ | reflexivity].
    destruct (Qlt_le_dec a b) as [H | H]; [exact H |].
    apply Qle_bool_iff in H. congruence.
Qed.

Lemma Qltb_ge (a b : Q) : Qltb a b = false <-> b <= a.
Proof.
  unfold Qltb. rewrite negb_false_iff. apply Qle_bool_iff.
Qed.

Lemma Math_min_le_r (a b : Q) : Math_min a b <= b.
Proof.
  unfold Math_min. destruct (Qle_bool a b) eqn:E.
  - now apply Qle_bool_iff.
  - lra.
Qed.

Lemma Math_min_glb (a b c : Q) : c <= a -> c <= b -> c <= Math_min a b.
Proof. unfold Math_min. now destruct (Qle_bool a b). Qed.

Lemma Math_min_id (a b : Q) : a <= b -> Math_min a b = a.
Proof.
  intro H. unfold Math_min. apply Qle_bool_iff in H. now rewrite H.
Qed.

Lemma Math_round_Z (z : Z) : Math_round (inject_Z z) = z.
Proof.
  unfold Math_round.
  assert (Hlo : (z <= Qfloor (inject_Z z + (1 # 2)))%Z).
  { rewrite <- (Qfloor_Z z) at 1. apply Qfloor_resp_le. lra. }
  assert (Hhi : (Qfloor (inject_Z z + (1 # 2)) < z + 1)%Z).
  { rewrite Zlt_Qlt. eapply Qle_lt_trans; [apply Qfloor_le |].
    rewrite inject_Z_plus. change (inject_Z 1) with 1. lra. }
  lia.
Qed.

(** ** Formatting *)








(** C10. [formatTime] returns "0s" for an argument that is absent, zero or
    negative. *)
Theorem formatTime_falsy_or_negative (seconds : option Q) :
  match seconds with
  | None => True
  | Some s => s <= 0
  end ->
  formatTime seconds = "0s".
Proof.
  destruct seconds as [s |]; [| reflexivity].
  intro H. unfold formatTime, num_falsy.
  destruct (Qeq_bool s 0) eqn:E; [reflexivity |].
  assert (Hlt : Qltb s 0 = true).
  { apply Qltb_lt. apply Qeq_bool_neq in E.
    destruct (Qlt_le_dec s 0) as [L | L]; [exact L |].
    exfalso. apply E. lra. }
  now rewrite Hlt.
Qed.

Lemma formatTime_falsy_or_negative_witness :
  formatTime None = "0s" /\ formatTime (Some 0) = "0s" /\
  formatTime (Some (-(7 # 2))) = "0s".
Proof.
  split; [apply (formatTime_falsy_or_negative None); exact I |].
  split.
  - apply (formatTime_falsy_or_negative (Some 0)). cbn. lra.
  - apply (formatTime_falsy_or_negative (Some (-(7 # 2)))). cbn. lra.
Defined.

(** ** The validator *)

Lemma append_assoc (a b c : string) : (a ++ b) ++ c = a ++ b ++ c.
Proof. induction a as [| x a IH]; cbn; [reflexivity | now rewrite IH]. Qed.

Lemma strip_prefix_spec (p s t : string) :
  strip_prefix p s = Some t <-> s = p ++ t.
Proof.
  revert s. induction p as [| a p IH]; intros s; cbn.
  - split; [intros [= ->] | intros ->]; reflexivity.
  - destruct s as [| b s]; [split; discriminate |].
    destruct (Ascii.eqb_spec a b) as [-> | Hne].
    + rewrite IH. split; [intros -> | intros [= ->]]; reflexivity.
    + split; [discriminate | intros [= E _]; congruence].
Qed.

Lemma plus_residuals_spec (cls : ascii -> bool) (s t : string) :
  In t (plus_residuals cls s) <->
  exists w, (w <> "" /\ all_chars cls w = true) /\ s = w ++ t.
Proof.
  revert t. induction s as [| c s IH]; intros t; cbn.
  - split; [intros [] |].
    intros (w & (Hne & _) & E). destruct w; [congruence | discriminate].
  - destruct (cls c) eqn:Hc.
    + rewrite in_app_iff, IH. cbn. split.
      * intros [(w & (Hne & Hall) & ->) | [-> | []]].
        -- exists (String c w). cbn. rewrite Hc, Hall.
           repeat split; [discriminate].
        -- exists (String c ""). cbn. rewrite Hc.
           repeat split; [discriminate].
      * intros (w & (Hne & Hall) & E).
        destruct w as [| c' w]; [congruence |].
        cbn in E, Hall. injection E as -> ->.
        apply andb_true_iff in Hall as [_ Hall].
        destruct w as [| c'' w].
        -- right. left. reflexivity.
        -- left. exists (String c'' w). repeat split; [discriminate | exact Hall].
    + split; [intros [] |].
      intros (w & (Hne & Hall) & E).
      destruct w as [| c' w]; [congruence |].
      cbn in E, Hall. injection E as -> ->. rewrite Hc in Hall. discriminate.
Qed.

(** [residuals] lists exactly the suffixes left by a word of the expression. *)
Lemma residuals_spec (r : regex) (s t : string) :
  In t (residuals r s) <-> exists w, lang r w /\ s = w ++ t.
Proof.
  revert s t. induction r as [p | r IH | cls | r1 IH1 r2 IH2]; intros s t; cbn.
  - destruct (strip_prefix p s) as [t' |] eqn:E.
    + apply strip_prefix_spec in E. subst s. cbn. split.
      * intros [-> | []]. now exists p.
      * intros (w & Hw & E). subst w. left.
        clear -E. induction p as [| c p IH]; cbn in E; [exact E |].
        injection E as E. auto.
    + split; [intros [] |]. intros (w & Hw & ->). subst w.
      assert (H : strip_prefix p (p ++ t) = Some t) by now apply strip_prefix_spec.
      congruence.
  - rewrite in_app_iff, IH. cbn. split.
    + intros [(w & Hw & ->) | [-> | []]].
      * exists w. auto.
      * exists "". auto.
    + intros (w & [-> | Hw] & ->).
      * right. left. reflexivity.
      * left. now exists w.
  - apply plus_residuals_spec.
  - rewrite in_flat_map. split.
    + intros (m & Hm & Ht). apply IH1 in Hm as (u & Hu & ->).
      apply IH2 in Ht as (v & Hv & ->).
      exists (u ++ v). split; [now exists u, v |]. now rewrite append_assoc.
    + intros (w & (u & v & -> & Hu & Hv) & ->).
      exists (v ++ t). split.
      * apply IH1. exists u. split; [exact Hu |]. now rewrite append_assoc.
      * apply IH2. now exists v.
Qed.

Lemma regex_test_spec (r : regex) (s : string) :
  regex_test r s = true <-> exists w t, lang r w /\ s = w ++ t.
Proof.
  unfold regex_test. split.
  - destruct (residuals r s) as [| t l] eqn:E; [discriminate |]. intros _.
    assert (H : In t (residuals r s)) by (rewrite E; now left).
    apply residuals_spec in H as (w & Hw & ->). now exists w, t.
  - intros (w & t & Hw & ->).
    assert (H : In t (residuals r (w ++ t))).
    { apply residuals_spec. now exists w. }
    now destruct (residuals r (w ++ t)).
Qed.

Lemma lang_scheme (w : string) :
  lang (Lit "http" ;; Opt (Lit "s") ;; Lit "://")%re w <->
  exists scheme, is_scheme scheme /\ w = scheme ++ "://".
Proof.
  cbn. split.
  - intros (u & v & -> & -> & u' & v' & -> & [-> | ->] & ->).
    + exists "http". split; [now left | reflexivity].
    + exists "https". split; [now right | reflexivity].
  - intros (scheme & [-> | ->] & ->).
    + exists "http", "://". repeat split. exists "", "://". auto.
    + exists "http", "s://". repeat split. exists "s", "://". auto.
Qed.

Lemma lang_Seq (r1 r2 : regex) (w : string) :
  lang (r1 ;; r2)%re w <-> exists u v, w = u ++ v /\ lang r1 u /\ lang r2 v.
Proof. reflexivity. Qed.

(** Regrouping [a ;; b ;; c ;; rest] as [(a ;; b ;; c) ;; rest]. *)
Lemma lang_regroup (a b c rest : regex) (w : string) :
  lang (a ;; b ;; c ;; rest)%re w <-> lang ((a ;; b ;; c) ;; rest)%re w.
Proof.
  cbn. split.
  - intros (u1 & v1 & -> & H1 & u2 & v2 & -> & H2 & u3 & v3 & -> & H3 & H4).
    exists (u1 ++ u2 ++ u3), v3. rewrite !append_assoc. repeat split; [| exact H4].
    exists u1, (u2 ++ u3). repeat split; [exact H1 |]. now exists u2, u3.
  - intros (u & v & -> & (u1 & v1 & -> & H1 & u2 & u3 & -> & H2 & H3) & H4).
    exists u1, (u2 ++ u3 ++ v). rewrite !append_assoc. repeat split; [exact H1 |].
    exists u2, (u3 ++ v). repeat split; [exact H2 |]. now exists u3, v.
Qed.

Lemma lang_with_www (path w : string) :
  lang (Lit "http" ;; Opt (Lit "s") ;; Lit "://" ;; Opt (Lit "www.") ;;
        Lit path ;; Plus is_id_char)%re w <->
  exists scheme www id,
    is_scheme scheme /\ is_www www /\ identifier id /\
    w = scheme ++ "://" ++ www ++ path ++ id.
Proof.
  rewrite lang_regroup, lang_Seq. split.
  - intros (u & v & -> & Hu & Hv).
    apply lang_scheme in Hu as (scheme & Hs & ->).
    destruct Hv as (www & v' & -> & Hw & p & id & -> & -> & Hid).
    exists scheme, www, id. rewrite !append_assoc. auto.
  - intros (scheme & www & id & Hs & Hw & Hid & ->).
    exists (scheme ++ "://"), (www ++ path ++ id). rewrite !append_assoc.
    repeat split.
    + apply lang_scheme. now exists scheme.
    + exists www, (path ++ id). repeat split; [exact Hw |]. now exists path, id.
Qed.

Lemma lang_without_www (path w : string) :
  lang (Lit "http" ;; Opt (Lit "s") ;; Lit "://" ;;
        Lit path ;; Plus is_id_char)%re w <->
  exists scheme id,
    is_scheme scheme /\ identifier id /\ w = scheme ++ "://" ++ path ++ id.
Proof.
  rewrite lang_regroup, lang_Seq. split.
  - intros (u & v & -> & Hu & Hv).
    apply lang_scheme in Hu as (scheme & Hs & ->).
    destruct Hv as (p & id & -> & -> & Hid).
    exists scheme, id. rewrite !append_assoc. auto.
  - intros (scheme & id & Hs & Hid & ->).
    exists (scheme ++ "://"), (path ++ id). rewrite !append_assoc.
    repeat split.
    + apply lang_scheme. now exists scheme.
    + now exists path, id.
Qed.

(** Some pattern accepts [s] exactly when [s] has one of the four shapes. *)
Lemma patterns_shape (s : string) :
  existsb (fun pattern => regex_test pattern s) patterns = true <->
  locator_shape s.
Proof.
  unfold patterns. cbn [existsb]. rewrite !orb_true_iff, !regex_test_spec.
  unfold pattern_watch, pattern_short, pattern_shorts, pattern_embed. split.
  - intros [(w & t & H & ->) | [(w & t & H & ->) | [(w & t & H & ->) |
            [(w & t & H & ->) | H]]]]; [| | | | discriminate].
    + apply lang_with_www in H as (sc & www & id & Hs & Hw & Hid & ->).
      rewrite !append_assoc. now apply watch_page_link.
    + apply lang_without_www in H as (sc & id & Hs & Hid & ->).
      rewrite !append_assoc. now apply short_link.
    + apply lang_with_www in H as (sc & www & id & Hs & Hw & Hid & ->).
      rewrite !append_assoc. now apply shorts_link.
    + apply lang_with_www in H as (sc & www & id & Hs & Hw & Hid & ->).
      rewrite !append_assoc. now apply embed_link.
  - intros [sc www id rest Hs Hw Hid | sc id rest Hs Hid
           | sc www id rest Hs Hw Hid | sc www id rest Hs Hw Hid].
    + left. exists (sc ++ "://" ++ www ++ "youtube.com/watch?v=" ++ id), rest.
      split; [apply lang_with_www; now exists sc, www, id |].
      now rewrite !append_assoc.
    + right. left. exists (sc ++ "://" ++ "youtu.be/" ++ id), rest.
      split; [apply lang_without_www; now exists sc, id |].
      now rewrite !append_assoc.
    + right. right. left.
      exists (sc ++ "://" ++ www ++ "youtube.com/shorts/" ++ id), rest.
      split; [apply lang_with_www; now exists sc, www, id |].
      now rewrite !append_assoc.
    + right. right. right. left.
      exists (sc ++ "://" ++ www ++ "youtube.com/embed/" ++ id), rest.
      split; [apply lang_with_www; now exists sc, www, id |].
      now rewrite !append_assoc.
Qed.

Lemma drop_spaces_last (l : list ascii) (c : ascii) :
  is_space c = false -> drop_spaces (l ++ [c]) <> [].
Proof.
  intro Hc. induction l as [| x l IH]; cbn.
  - now rewrite Hc.
  - destruct (is_space x); [exact IH | discriminate].
Qed.

Lemma trim_not_empty (c : ascii) (r : string) :
  is_space c = false -> is_empty (trim (String c r)) = false.
Proof.
  intro Hc. unfold trim. cbn [list_ascii_of_string drop_spaces]. rewrite Hc.
  cbn [rev].
  pose proof (drop_spaces_last (rev (list_ascii_of_string r)) c Hc) as H.
  destruct (drop_spaces (rev (list_ascii_of_string r) ++ [c])) as [| x l];
    [congruence |].
  cbn [rev]. destruct (rev l); reflexivity.
Qed.

Lemma locator_shape_head (s : string) :
  locator_shape s -> exists r, s = String "h" r.
Proof.
  intros [sc www id rest [-> | ->] _ _ | sc id rest [-> | ->] _
         | sc www id rest [-> | ->] _ _ | sc www id rest [-> | ->] _ _];
    cbn; eexists; reflexivity.
Qed.

Lemma locator_shape_prefix (s : string) :
  locator_shape s <-> exists w rest, exact_locator w /\ s = w ++ rest.
Proof.
  split.
  - intros [sc www id rest Hs Hw Hid | sc id rest Hs Hid
           | sc www id rest Hs Hw Hid | sc www id rest Hs Hw Hid].
    + exists (sc ++ "://" ++ www ++ "youtube.com/watch?v=" ++ id), rest.
      split; [now constructor | now rewrite !append_assoc].
    + exists (sc ++ "://" ++ "youtu.be/" ++ id), rest.
      split; [now constructor | now rewrite !append_assoc].
    + exists (sc ++ "://" ++ www ++ "youtube.com/shorts/" ++ id), rest.
      split; [now constructor | now rewrite !append_assoc].
    + exists (sc ++ "://" ++ www ++ "youtube.com/embed/" ++ id), rest.
      split; [now constructor | now rewrite !append_assoc].
  - intros (w & rest & [sc www id Hs Hw Hid | sc id Hs Hid
                        | sc www id Hs Hw Hid | sc www id Hs Hw Hid] & ->);
      rewrite !append_assoc.
    + now apply watch_page_link.
    + now apply short_link.
    + now apply shorts_link.
    + now apply embed_link.
Qed.

Lemma last_char_append (a b : string) :
  b <> "" -> last_char (a ++ b) = last_char b.
Proof.
  intro Hb. induction a as [| c a IH]; [reflexivity |].
  cbn [append last_char]. rewrite <- IH.
  destruct (a ++ b) eqn:E; [| reflexivity].
  destruct a; cbn in E; [congruence | discriminate].
Qed.

Lemma all_chars_last (p : ascii -> bool) (s : string) :
  s <> "" -> all_chars p s = true ->
  exists c, last_char s = Some c /\ p c = true.
Proof.
  induction s as [| c s IH]; intros Hne Hall; [congruence |].
  cbn in Hall. apply andb_true_iff in Hall as [Hc Hall].
  destruct s as [| c' s'].
  - exists c. split; [reflexivity | exact Hc].
  - destruct (IH ltac:(discriminate) Hall) as (x & Hx & Hp).
    exists x. split; [exact Hx | exact Hp].
Qed.

(** A string of one of the shapes with a trailing identifier ends with a
    word character or a hyphen. *)
Lemma exact_locator_last (s : string) :
  exact_locator s -> exists c, last_char s = Some c /\ is_id_char c = true.
Proof.
  intros [sc www id Hs Hw (Hne & Hall) | sc id Hs (Hne & Hall)
         | sc www id Hs Hw (Hne & Hall) | sc www id Hs Hw (Hne & Hall)];
    rewrite <- !append_assoc, (last_char_append _ id Hne);
    now apply all_chars_last.
Qed.

(** The claim C5 as stated fails, read with the identifier trailing: the
    patterns are not anchored at the end, so a string is accepted although
    something that is neither a word character nor a hyphen follows the
    identifier, and no shape with a trailing identifier fits it. *)
Lemma text_after_the_identifier_is_accepted :
  isValidYouTubeUrl "https://youtu.be/a!" = true /\
  ~ exact_locator "https://youtu.be/a!" /\
  isValidYouTubeUrl "https://youtu.be/abc123 https://evil.example/" = true /\
  ~ exact_locator "https://youtu.be/abc123 https://evil.example/".
Proof.
  split; [reflexivity |]. split; [| split; [reflexivity |]].
  - intro H. apply exact_locator_last in H as (c & Hc & Hid).
    cbn in Hc. injection Hc as <-. discriminate Hid.
  - intro H. apply exact_locator_last in H as (c & Hc & Hid).
    cbn in Hc. injection Hc as <-. discriminate Hid.
Qed.

(** C5, amended.  [isValidYouTubeUrl] returns true exactly on the strings
    that begin with one of the four locator shapes (watch-page, short,
    shorts or embed link) carrying an identifier of at least one word
    character or hyphen: the accepted strings are those of a shape with a
    trailing identifier, followed by any text.  It returns false on the
    empty string, on strings of white space, and on every string that does
    not begin with such a shape.  It is pure: the call returns a value that
    depends on the argument alone and leaves the object as it was. *)
Theorem isValidYouTubeUrl_accepts_exactly_the_shapes (url : string) :
  (isValidYouTubeUrl url = true <-> locator_shape url) /\
  (url = "" \/ whitespace_only url -> isValidYouTubeUrl url = false) /\
  (~ locator_shape url -> isValidYouTubeUrl url = false) /\
  (isValidYouTubeUrl url = true <->
     exists w rest, exact_locator w /\ url = w ++ rest) /\
  (forall (state : Type) (this that : state),
     snd (call_isValidYouTubeUrl url this) = this /\
     fst (call_isValidYouTubeUrl url this)
     = fst (call_isValidYouTubeUrl url that)).
Proof.
  assert (Hiff : isValidYouTubeUrl url = true <-> locator_shape url).
  { unfold isValidYouTubeUrl. split.
    - destruct (is_empty url || is_empty (trim url)); [discriminate |].
      apply patterns_shape.
    - intro H. destruct (locator_shape_head url H) as (r & E).
      rewrite E at 1 2. cbn [is_empty].
      rewrite trim_not_empty by reflexivity. cbn [orb].
      now apply patterns_shape. }
  split; [exact Hiff |]. split; [| split; [| split]].
  - intros H. apply not_true_is_false. intro E.
    apply Hiff in E. destruct (locator_shape_head url E) as (r & ->).
    destruct H as [H | H]; discriminate.
  - intro H. apply not_true_is_false. intro E.
    apply Hiff in E. contradiction.
  - rewrite Hiff. apply locator_shape_prefix.
  - intros state this that. split; reflexivity.
Qed.

Lemma isValidYouTubeUrl_accepts_exactly_the_shapes_witness :
  isValidYouTubeUrl "https://youtu.be/abc123" = true /\
  isValidYouTubeUrl "   " = false /\
  isValidYouTubeUrl "https://example.com/watch?v=abc" = false.
Proof.
  split; [| split].
  - apply (proj1 (isValidYouTubeUrl_accepts_exactly_the_shapes
                    "https://youtu.be/abc123")).
    apply (short_link "https" "abc123" "").
    + now right.
    + split; [discriminate | reflexivity].
  - apply (proj1 (proj2 (isValidYouTubeUrl_accepts_exactly_the_shapes "   "))).
    right. reflexivity.
  - apply (proj1 (proj2 (proj2 (isValidYouTubeUrl_accepts_exactly_the_shapes
                                  "https://example.com/watch?v=abc")))).
    intro H.
    apply (proj1 (isValidYouTubeUrl_accepts_exactly_the_shapes _)) in H.
    discriminate H.
Defined.

(** ** The poller *)

Lemma nth_error_in_range {A : Type} (l : list A) (i : nat) :
  (i < length l)%nat -> exists x, nth_error l i = Some x.
Proof.
  intro H. destruct (nth_error l i) as [x |] eqn:E; [now exists x |].
  apply nth_error_None in E. lia.
Qed.

Lemma remove_nth_snoc {A : Type} (l : list A) (x : A) :
  remove_nth (length l) (l ++ [x]) = l.
Proof. induction l as [| y l IH]; cbn; [reflexivity | now rewrite IH]. Qed.

(** Reading a field through the setters and the methods that only assign. *)
Ltac fields :=
  cbn [lastPercent currentTaskId pollInterval visible progressFillWidth
       progressStatus progressPercent progressInfo errorMessage resultFilename
       downloadHref submitDisabled now timersCreated statusFetches submissions
       frameCallbacks console errorsShown
       set_lastPercent set_currentTaskId set_pollInterval set_visible
       set_progressFillWidth set_progressStatus set_progressPercent
       set_progressInfo set_errorMessage set_errorsShown set_result
       set_submitDisabled set_now set_timersCreated set_statusFetches
       set_submissions set_frameCallbacks set_console
       hideAllContainers showError showProgress showResult setLoadingState
       page startPercent targetPercent startTime].

(** The callbacks, step by step. *)
Lemma step_StatusSettles (d : downloader) (i : nat) (r : fetch_result snapshot) :
  (i < length (statusFetches d))%nat ->
  step d (StatusSettles i r)
  = poll_continue r (set_statusFetches (remove_nth i (statusFetches d)) d).
Proof.
  intro Hi. destruct (nth_error_in_range _ _ Hi) as (x & Hx).
  unfold step. now rewrite Hx.
Qed.

Lemma step_Tick_active (d : downloader) (h : nat) (c : ascii) (id : string) :
  pollInterval d = Some h ->
  currentTaskId d = Some (String c id) ->
  step d Tick = set_statusFetches (statusFetches d ++ [String c id]) d.
Proof.
  intros Hp Hc. unfold step, tick. now rewrite Hp, Hc.
Qed.

Lemma poll_continue_completed (data : snapshot) (d : downloader) :
  status data = Some "completed" ->
  poll_continue (Responded true (Json data)) d
  = setLoadingState false (showResult data (stopPolling (updateProgress data d))).
Proof.
  intro Hs. unfold poll_continue. rewrite Hs. reflexivity.
Qed.

Lemma stopPolling_pollInterval (d : downloader) :
  pollInterval (stopPolling d) = None.
Proof.
  unfold stopPolling. destruct (pollInterval d) eqn:E; [reflexivity | exact E].
Qed.

(** C4. A status request that fails in transport is only logged: the page,
    the task and the timer are as before, so the next tick sends a new
    request, and that one can still bring the task to its end. *)
Theorem transport_failure_is_swallowed
  (d : downloader) (i : nat) (message : string) :
  (i < length (statusFetches d))%nat ->
  let d' := step d (StatusSettles i (Rejected message)) in
  page d' = page d /\
  errorsShown d' = errorsShown d /\
  console d' = (console d ++ [message])%list /\
  pollInterval d' = pollInterval d /\
  currentTaskId d' = currentTaskId d /\
  lastPercent d' = lastPercent d /\
  frameCallbacks d' = frameCallbacks d /\
  statusFetches d' = remove_nth i (statusFetches d) /\
  (forall (h : nat) (c : ascii) (id : string) (data : snapshot),
     pollInterval d = Some h ->
     currentTaskId d = Some (String c id) ->
     status data = Some "completed" ->
     let retried := step d' Tick in
     statusFetches retried = (statusFetches d' ++ [String c id])%list /\
     let finished :=
       step retried
            (StatusSettles (length (statusFetches d')) (Responded true (Json data))) in
     visible finished = ResultContainer /\
     pollInterval finished = None /\
     submitDisabled finished = false).
Proof.
  intros Hi d'. subst d'. rewrite (step_StatusSettles d i _ Hi).
  unfold poll_continue.
  repeat (split; [reflexivity |]).
  intros h c id data Hp Hc Hs. cbv zeta.
  erewrite step_Tick_active; [| exact Hp | exact Hc].
  split; [reflexivity |].
  rewrite step_StatusSettles.
  2:{ fields. rewrite length_app. cbn [length]. lia. }
  rewrite (poll_continue_completed _ _ Hs).
  fields.
  split; [reflexivity |]. split; [| reflexivity].
  apply stopPolling_pollInterval.
Qed.

Lemma transport_failure_is_swallowed_witness :
  let d' := step polling_t1 (StatusSettles 0 (Rejected "Failed to fetch")) in
  page d' = page polling_t1 /\ pollInterval d' = Some 1%nat /\
  statusFetches (step d' Tick) = ["t1"].
Proof.
  pose proof (transport_failure_is_swallowed polling_t1 0 "Failed to fetch")
    as H.
  cbv zeta in H.
  destruct H as (Hpage & _ & _ & Hpoll & _ & _ & _ & _ & Hnext).
  { vm_compute. lia. }
  split; [exact Hpage |]. split; [exact Hpoll |].
  apply (Hnext 1%nat "t"%char "1" completed); reflexivity.
Defined.

Ltac by_stopPolling :=
  unfold stopPolling;
  match goal with |- context [pollInterval ?d] => destruct (pollInterval d) end;
  reflexivity.

Lemma stopPolling_statusFetches (d : downloader) :
  statusFetches (stopPolling d) = statusFetches d.
Proof. by_stopPolling. Qed.

Lemma stopPolling_errorsShown (d : downloader) :
  errorsShown (stopPolling d) = errorsShown d.
Proof. by_stopPolling. Qed.

Lemma stopPolling_submissions (d : downloader) :
  submissions (stopPolling d) = submissions d.
Proof. by_stopPolling. Qed.

Lemma stopPolling_currentTaskId (d : downloader) :
  currentTaskId (stopPolling d) = currentTaskId d.
Proof. by_stopPolling. Qed.

Lemma step_Tick_stopped (d : downloader) :
  pollInterval d = None -> step d Tick = d.
Proof. intro H. unfold step. now rewrite H. Qed.

(** C3 on the code.  Task "t1" is being polled and its status request
    comes back with a non-2xx response whose body is not JSON.  The callback
    reads the body before it looks at the [ok] flag, so the read throws and
    the branch for a task that is not found or has expired is never reached:
    the failure is logged like a network error, the timer keeps running, the
    progress view stays up, no error is shown, and the next tick asks
    again. *)
Lemma non_2xx_without_json_body_keeps_polling :
  let d := step polling_t1
                (StatusSettles 0 (Responded false (NotJson "Unexpected token <"))) in
  pollInterval d = Some 1%nat /\
  visible d = ProgressContainer /\
  errorsShown d = [] /\
  console d = ["Unexpected token <"] /\
  statusFetches (step d Tick) = ["t1"].
Proof. vm_compute. repeat split. Qed.

(** X17. When a status request comes back with a non-2xx response whose
    body is JSON, the timer is stopped, the error view shows "Download task
    expired", shown by this callback once, the submit button is enabled
    again, no request is sent, and later ticks do nothing. *)
Theorem expired_task_is_terminal (d : downloader) (i : nat) (data : snapshot) :
  (i < length (statusFetches d))%nat ->
  let d' := step d (StatusSettles i (Responded false (Json data))) in
  pollInterval d' = None /\
  visible d' = ErrorContainer /\
  errorMessage d' = "Download task expired" /\
  errorsShown d' = (errorsShown d ++ ["Download task expired"])%list /\
  submitDisabled d' = false /\
  statusFetches d' = remove_nth i (statusFetches d) /\
  step d' Tick = d'.
Proof.
  intros Hi d'. subst d'. rewrite (step_StatusSettles d i _ Hi).
  unfold poll_continue.
  set (d1 := set_statusFetches _ d).
  assert (Hp : pollInterval
                 (setLoadingState false
                    (showError "Download task expired" (stopPolling d1))) = None).
  { fields. apply stopPolling_pollInterval. }
  split; [exact Hp |].
  split; [reflexivity |]. split; [reflexivity |].
  split; [fields; now rewrite stopPolling_errorsShown |].
  split; [reflexivity |].
  split; [fields; now rewrite stopPolling_statusFetches |].
  now apply step_Tick_stopped.
Qed.

Lemma expired_task_is_terminal_witness :
  let d' := step polling_t1
                 (StatusSettles 0 (Responded false (Json (downloading 40)))) in
  pollInterval d' = None /\ errorMessage d' = "Download task expired".
Proof.
  pose proof (expired_task_is_terminal polling_t1 0 (downloading 40)) as H.
  cbv zeta in H.
  destruct H as (Hp & _ & Hm & _).
  { vm_compute. lia. }
  split; [exact Hp | exact Hm].
Defined.

(** The claim C7 as stated fails: a tick that fires while a status request
    is still unanswered sends a second one. *)
Lemma second_tick_overlaps_the_first_fetch :
  statusFetches polling_t1 = ["t1"] /\
  statusFetches (step polling_t1 Tick) = ["t1"; "t1"].
Proof. vm_compute. split; reflexivity. Qed.

(** C7, amended. While a task is active every tick of the timer sends one
    status request, whatever is still unanswered: after [n] ticks with no
    answer there are [n] more requests in flight. *)
Theorem every_tick_sends_a_request
  (n : nat) (d : downloader) (h : nat) (c : ascii) (id : string) :
  pollInterval d = Some h ->
  currentTaskId d = Some (String c id) ->
  statusFetches (run d (repeat Tick n))
  = (statusFetches d ++ repeat (String c id) n)%list /\
  length (statusFetches (run d (repeat Tick n)))
  = (length (statusFetches d) + n)%nat.
Proof.
  intros Hp Hc.
  assert (H : statusFetches (run d (repeat Tick n))
              = (statusFetches d ++ repeat (String c id) n)%list).
  { revert d Hp Hc. induction n as [| n IH]; intros d Hp Hc.
    - cbn. now rewrite app_nil_r.
    - cbn [repeat run fold_left]. rewrite (step_Tick_active d h c id Hp Hc).
      change (fold_left step ?l ?x) with (run x l).
      rewrite IH by assumption. fields. now rewrite <- app_assoc. }
  split; [exact H |]. rewrite H, length_app, repeat_length. reflexivity.
Qed.

Lemma every_tick_sends_a_request_witness :
  length (statusFetches (run polling_t1 (repeat Tick 3))) = 4%nat.
Proof.
  apply (every_tick_sends_a_request 3 polling_t1 1 "t" "1"); reflexivity.
Defined.

(** ** Submission *)

Lemma resetUI_submissions (d : downloader) :
  submissions (resetUI d) = submissions d.
Proof. unfold resetUI. now rewrite stopPolling_submissions. Qed.

Lemma resetUI_statusFetches (d : downloader) :
  statusFetches (resetUI d) = statusFetches d.
Proof. unfold resetUI. now rewrite stopPolling_statusFetches. Qed.

Lemma resetUI_currentTaskId (d : downloader) :
  currentTaskId (resetUI d) = None.
Proof. unfold resetUI. now rewrite stopPolling_currentTaskId. Qed.

Lemma resetUI_pollInterval (d : downloader) :
  pollInterval (resetUI d) = None.
Proof. unfold resetUI. apply stopPolling_pollInterval. Qed.

Lemma step_Submit_valid (d : downloader) (url formatType quality : string) :
  submitDisabled d = false ->
  isValidYouTubeUrl url = true ->
  step d (Submit url formatType quality)
  = set_submissions (submissions d ++ [(url, formatType, quality)])
                    (setLoadingState true (resetUI d)).
Proof.
  intros Hd Hv. unfold step, handleSubmit. rewrite Hd, Hv. cbn [negb].
  fields. now rewrite resetUI_submissions.
Qed.

Lemma step_SubmitSettles (d : downloader) (i : nat) (r : fetch_result submit_body) :
  (i < length (submissions d))%nat ->
  step d (SubmitSettles i r)
  = submit_continue r (set_submissions (remove_nth i (submissions d)) d).
Proof.
  intro Hi. destruct (nth_error_in_range _ _ Hi) as (x & Hx).
  unfold step. now rewrite Hx.
Qed.

(** The order of preference of [data.message || data.error || 'Download failed']. *)
Lemma failure_message_preference (data : submit_body) :
  (str_truthy (sb_message data) = true ->
     sb_message data = Some (failure_message data)) /\
  (str_truthy (sb_message data) = false ->
   str_truthy (sb_error data) = true ->
     sb_error data = Some (failure_message data)) /\
  (str_truthy (sb_message data) = false ->
   str_truthy (sb_error data) = false ->
     failure_message data = "Download failed") /\
  (sb_message data <> Some "" -> sb_error data <> Some "" ->
     failure_message data = stated_message data).
Proof.
  unfold failure_message, stated_message.
  destruct (sb_message data) as [[| c m] |], (sb_error data) as [[| c' e] |];
    cbn; repeat split; intros; congruence.
Qed.

(** The claim C6 as stated fails when the [message] field is present and
    empty: the error shown is then the [error] field.  It also fails when
    the body of the non-success response is not JSON: the error shown is
    then the parser's message, not the default one. *)
Lemma failure_message_is_not_always_the_stated_one :
  let submit := Submit "https://youtu.be/abc123" "video" "best" in
  let d := run initial
               [submit; SubmitSettles 0 (Responded false (Json empty_message))] in
  let d' := run initial
                [submit;
                 SubmitSettles 0 (Responded false (NotJson "Unexpected token <"))] in
  sb_message empty_message = Some "" /\
  stated_message empty_message = "" /\
  errorMessage d = "Video unavailable" /\
  errorMessage d <> stated_message empty_message /\
  errorMessage d' = "Unexpected token <".
Proof. vm_compute. repeat split. discriminate. Qed.

(** C6, amended. When the answer to a valid submission is a non-success
    response whose body is JSON, the error view shows the [message] field if
    it is present and not empty, otherwise the [error] field if it is
    present and not empty, otherwise "Download failed"; no task id is stored,
    no timer is started and no status request is sent. *)
Theorem failed_submission_shows_preferred_message
  (d : downloader) (url formatType quality : string) (data : submit_body) :
  submitDisabled d = false ->
  isValidYouTubeUrl url = true ->
  let d1 := step d (Submit url formatType quality) in
  let d2 := step d1 (SubmitSettles (length (submissions d))
                                   (Responded false (Json data))) in
  visible d2 = ErrorContainer /\
  errorMessage d2 = failure_message data /\
  (str_truthy (sb_message data) = true ->
     sb_message data = Some (failure_message data)) /\
  (str_truthy (sb_message data) = false ->
   str_truthy (sb_error data) = true ->
     sb_error data = Some (failure_message data)) /\
  (str_truthy (sb_message data) = false ->
   str_truthy (sb_error data) = false ->
     failure_message data = "Download failed") /\
  (sb_message data <> Some "" -> sb_error data <> Some "" ->
     failure_message data = stated_message data) /\
  currentTaskId d2 = None /\
  pollInterval d2 = None /\
  statusFetches d2 = statusFetches d /\
  submissions d2 = submissions d /\
  submitDisabled d2 = false.
Proof.
  intros Hd Hv d1 d2. subst d1 d2.
  rewrite (step_Submit_valid d url formatType quality Hd Hv).
  generalize (resetUI_currentTaskId d) (resetUI_pollInterval d)
             (resetUI_statusFetches d).
  generalize (resetUI d). intros r Hc Hp Hf.
  rewrite step_SubmitSettles by (fields; rewrite length_app; cbn [length]; lia).
  fields. rewrite remove_nth_snoc. unfold submit_continue. fields.
  destruct (failure_message_preference data) as (H1 & H2 & H3 & H4).
  repeat (split; [first [reflexivity | assumption] |]). reflexivity.
Qed.

Lemma failed_submission_shows_preferred_message_witness :
  let d := run initial
               [Submit "https://youtu.be/abc123" "video" "best";
                SubmitSettles 0 (Responded false (Json empty_message))] in
  errorMessage d = "Video unavailable" /\ currentTaskId d = None /\
  pollInterval d = None.
Proof.
  pose proof (failed_submission_shows_preferred_message
                initial "https://youtu.be/abc123" "video" "best" empty_message
                eq_refl eq_refl) as H.
  cbv zeta in H. destruct H as (_ & Hm & _ & _ & _ & _ & Hc & Hp & _).
  split; [exact Hm |]. split; [exact Hc | exact Hp].
Defined.

(** ** Late answers *)

(** C2 on the code.  Task "t1" has ended, "t2" has been accepted and is the
    active task, and a status request sent for "t1" is still unanswered.
    When its answer arrives it is applied: the progress view of "t2" takes
    the percentage and the label of "t1"; and if the answer says that "t1"
    is complete, the timer of "t2" is stopped and the result view is shown. *)
Theorem stale_snapshot_is_applied :
  let before := t2_with_stale_t1_fetch in
  currentTaskId before = Some "t2" /\
  statusFetches before = ["t1"] /\
  visible before = ProgressContainer /\
  pollInterval before = Some 2%nat /\
  progressFillWidth before = 0 /\
  let late := step before (StatusSettles 0 (Responded true (Json (downloading 40)))) in
  page late <> page before /\
  progressFillWidth late = 40 /\
  progressStatus late = "Downloading..." /\
  let ended := step before (StatusSettles 0 (Responded true (Json completed))) in
  visible ended = ResultContainer /\
  resultFilename ended = "abc123.mp4" /\
  downloadHref ended = Some "t2" /\
  pollInterval ended = None.
Proof. vm_compute. repeat split. discriminate. Qed.

(** ** The percentage display *)

Lemma shown_stopPolling (d : downloader) : shown (stopPolling d) = shown d.
Proof. by_stopPolling. Qed.

Lemma shown_startPolling (d : downloader) : shown (startPolling d) = shown d.
Proof. unfold startPolling. destruct (pollInterval d); reflexivity. Qed.

Lemma shown_resetUI (d : downloader) :
  shown (resetUI d) = (0%Z, 0, 0, frameCallbacks d, now d).
Proof. unfold resetUI. now rewrite shown_stopPolling. Qed.

Lemma shown_updateProgress (data : snapshot) (d : downloader) :
  shown (updateProgress data d)
  = (progressPercent d, Math_min (progress_or_0 data) 100, lastPercent d,
     (frameCallbacks d
      ++ [{| startPercent := lastPercent d;
             targetPercent := Math_min (progress_or_0 data) 100;
             startTime := now d |}])%list,
     now d).
Proof. reflexivity. Qed.

Lemma shown_submit_continue (r : fetch_result submit_body) (d : downloader) :
  shown (submit_continue r d) = shown d.
Proof.
  destruct r as [m | [|] [data | m]]; cbn [submit_continue];
    try reflexivity.
  now rewrite shown_startPolling.
Qed.

Lemma shown_tick (d : downloader) : shown (tick d) = shown d.
Proof.
  unfold tick. destruct (currentTaskId d) as [[| c r] |];
    solve [reflexivity | apply shown_stopPolling].
Qed.

Lemma shown_poll_continue (r : fetch_result snapshot) (d : downloader) :
  shown (poll_continue r d)
  = match r with
    | Responded true (Json data) => shown (updateProgress data d)
    | _ => shown d
    end.
Proof.
  destruct r as [m | [|] [data | m]]; cbn [poll_continue]; try reflexivity.
  - destruct (status data) as [st |]; [| reflexivity].
    destruct (String.eqb st "completed").
    + change (shown (stopPolling (updateProgress data d))
              = shown (updateProgress data d)).
      apply shown_stopPolling.
    + destruct (String.eqb st "error"); [| reflexivity].
      change (shown (stopPolling (updateProgress data d))
              = shown (updateProgress data d)).
      apply shown_stopPolling.
  - change (shown (stopPolling d) = shown d). apply shown_stopPolling.
Qed.

Section DisplayInvariant.

(** A set of percentages that contains 0 and every value an animation
    inside it writes. *)
Variable P : Q -> Prop.
Variable PZ : Z -> Prop.
Hypothesis P_zero : P 0.
Hypothesis PZ_zero : PZ 0%Z.
Hypothesis P_frame :
  forall (a : animation) (t : Q), anim_ok P t a -> PZ (currentPercent a t).

Lemma anim_ok_later (t t' : Q) (a : animation) :
  t <= t' -> anim_ok P t a -> anim_ok P t' a.
Proof.
  intros Ht (Hs & Hg & Hst). repeat split; [exact Hs | exact Hg | lra].
Qed.

Lemma animate_ok (a : animation) (d : downloader) :
  display_ok P PZ d -> anim_ok P (now d) a ->
  display_ok P PZ (animate a (now d) d) /\ now (animate a (now d) d) = now d.
Proof.
  intros (Hpct & Hw & Hl & Hf) Ha. unfold animate.
  destruct (Qltb (anim_progress a (now d)) 1).
  - split; [| reflexivity]. repeat split; fields; auto.
    apply Forall_app. split; [exact Hf | now constructor].
  - split; [| reflexivity]. repeat split; fields; auto.
    apply Ha.
Qed.

Lemma frame_callbacks_ok (l : list animation) (d : downloader) :
  display_ok P PZ d -> Forall (anim_ok P (now d)) l ->
  display_ok P PZ (fold_left (fun d a => animate a (now d) d) l d).
Proof.
  revert d. induction l as [| a l IH]; intros d Hd Hl; [exact Hd |].
  cbn [fold_left]. inversion Hl as [| ? ? Ha Hl']; subst.
  destruct (animate_ok a d Hd Ha) as (Hd' & Hnow).
  apply IH; [exact Hd' | now rewrite Hnow].
Qed.

Lemma run_frame_ok (d : downloader) :
  display_ok P PZ d -> display_ok P PZ (run_frame d).
Proof.
  intros Hd. unfold run_frame. apply frame_callbacks_ok.
  - destruct Hd as (Hpct & Hw & Hl & Hf). repeat split; fields; auto.
  - apply Hd.
Qed.

Lemma updateProgress_ok (data : snapshot) (d : downloader) :
  P (Math_min (progress_or_0 data) 100) ->
  display_ok P PZ d -> display_ok P PZ (updateProgress data d).
Proof.
  intros Ht (Hpct & Hw & Hl & Hf). unfold display_ok.
  rewrite shown_updateProgress. repeat split; auto.
  apply Forall_app. split; [exact Hf |]. constructor; [| constructor].
  repeat split; fields; auto. lra.
Qed.

Lemma step_ok (d : downloader) (e : event) :
  display_ok P PZ d -> event_ok P e -> display_ok P PZ (step d e).
Proof.
  intros Hd He. destruct e as [url f q | i r | | i r | | dt]; cbn [step].
  - destruct (submitDisabled d); [exact Hd |]. unfold handleSubmit.
    destruct (isValidYouTubeUrl url); cbn [negb].
    + unfold display_ok.
      change (shown_ok P PZ (shown (resetUI d))).
      rewrite shown_resetUI. destruct Hd as (_ & _ & _ & Hf).
      repeat split; auto.
    + exact Hd.
  - destruct (nth_error (submissions d) i); [| exact Hd].
    unfold display_ok. rewrite shown_submit_continue. exact Hd.
  - destruct (pollInterval d); [| exact Hd].
    unfold display_ok. rewrite shown_tick. exact Hd.
  - destruct (nth_error (statusFetches d) i); [| exact Hd].
    unfold display_ok. rewrite shown_poll_continue.
    destruct r as [m | [|] [data | m]]; try exact Hd.
    apply (updateProgress_ok data _ He). exact Hd.
  - now apply run_frame_ok.
  - destruct (Qle_bool 0 dt) eqn:E; [| exact Hd].
    apply Qle_bool_iff in E. destruct Hd as (Hpct & Hw & Hl & Hf).
    repeat split; fields; auto.
    eapply Forall_impl; [| exact Hf].
    intros a. apply anim_ok_later. lra.
Qed.

Lemma run_ok (trace : list event) (d : downloader) :
  display_ok P PZ d -> Forall (event_ok P) trace ->
  display_ok P PZ (run d trace).
Proof.
  revert d. induction trace as [| e trace IH]; intros d Hd Ht; [exact Hd |].
  inversion Ht as [| ? ? He Ht']; subst.
  apply IH; [now apply step_ok | exact Ht'].
Qed.

End DisplayInvariant.

(** The animation curve. *)
Lemma anim_progress_range (a : animation) (t : Q) :
  startTime a <= t -> 0 <= anim_progress a t <= 1.
Proof.
  intro H. unfold anim_progress. split; [| apply Math_min_le_r].
  apply Math_min_glb; [| lra].
  apply Qle_shift_div_l; [reflexivity |]. lra.
Qed.

Lemma easeOut_range (p : Q) : 0 <= p <= 1 -> 0 <= easeOut p <= 1.
Proof.
  intros [H0 H1]. unfold easeOut, Math_pow3.
  assert (Hx : 0 <= 1 - p) by lra.
  assert (Hy : 1 - p <= 1) by lra.
  generalize dependent (1 - p). intros x Hx Hy.
  assert (Hxx : 0 <= x * x) by nra.
  assert (Hxx1 : x * x <= 1) by nra.
  split; nra.
Qed.

Lemma Math_round_le (hi : Z) (x : Q) :
  x <= inject_Z hi -> (Math_round x <= hi)%Z.
Proof.
  intro H. rewrite <- (Math_round_Z hi). unfold Math_round.
  apply Qfloor_resp_le. lra.
Qed.

Lemma Math_round_ge (lo : Z) (x : Q) :
  inject_Z lo <= x -> (lo <= Math_round x)%Z.
Proof.
  intro H. rewrite <- (Math_round_Z lo). unfold Math_round.
  apply Qfloor_resp_le. lra.
Qed.

Lemma frame_at_most_100 (a : animation) (t : Q) :
  anim_ok at_most_100 t a -> (currentPercent a t <= 100)%Z.
Proof.
  unfold at_most_100. intros (Hs & Hg & Ht).
  destruct (easeOut_range _ (anim_progress_range a t Ht)) as [H0 H1].
  unfold currentPercent. apply Math_round_le.
  change (inject_Z 100) with 100.
  generalize dependent (easeOut (anim_progress a t)). intros e H0 H1. nra.
Qed.

Lemma frame_at_least_0 (a : animation) (t : Q) :
  anim_ok at_least_0 t a -> (0 <= currentPercent a t)%Z.
Proof.
  unfold at_least_0. intros (Hs & Hg & Ht).
  destruct (easeOut_range _ (anim_progress_range a t Ht)) as [H0 H1].
  unfold currentPercent. apply Math_round_ge.
  change (inject_Z 0) with 0.
  generalize dependent (easeOut (anim_progress a t)). intros e H0 H1. nra.
Qed.

Lemma event_ok_at_most_100 (e : event) : event_ok at_most_100 e.
Proof.
  unfold event_ok, event_target.
  destruct e as [| | | i [m | [|] [data | m]] | |]; try exact I.
  apply Math_min_le_r.
Qed.

Lemma event_ok_at_least_0 (e : event) :
  match event_progress e with Some p => 0 <= p | None => True end ->
  event_ok at_least_0 e.
Proof.
  unfold event_ok, event_target, event_progress.
  destruct e as [| | | i [m | [|] [data | m]] | |]; try (intros; exact I).
  intro H. apply Math_min_glb; [exact H | discriminate].
Qed.

(** The claim C1 as stated fails on a negative progress value: it is not
    raised to 0, the bar gets a negative width and the animation ends on the
    negative number. *)
Lemma negative_progress_is_displayed :
  let d := run polling_t1
               [StatusSettles 0 (Responded true (Json (downloading (-5))));
                Elapse 300; Frame] in
  progressFillWidth d = -5 /\
  progressFillWidth d < 0 /\
  progressPercent d = (-5)%Z.
Proof. vm_compute. repeat split. Qed.

(** C1, amended.  [updateProgress] caps the progress value at 100 and takes
    an absent one as 0, and passes a value below 100 on as it is.  Whatever
    the snapshots say, the number shown and the width of the bar never
    exceed 100; and as long as no snapshot reports a negative progress they
    never fall below 0 either. *)
Theorem displayed_percentage_bounds (d : downloader) (trace : list event) :
  (forall data : snapshot,
     Math_min (progress_or_0 data) 100 <= 100 /\
     (progress_or_0 data <= 100 ->
        Math_min (progress_or_0 data) 100 = progress_or_0 data) /\
     (progress data = None -> Math_min (progress_or_0 data) 100 = 0) /\
     progressFillWidth (updateProgress data d)
     = Math_min (progress_or_0 data) 100) /\
  (display_ok at_most_100 (fun z => (z <= 100)%Z) d ->
     (progressPercent (run d trace) <= 100)%Z /\
     progressFillWidth (run d trace) <= 100) /\
  (display_ok at_least_0 (fun z => (0 <= z)%Z) d ->
   Forall (fun e => match event_progress e with
                    | Some p => 0 <= p
                    | None => True
                    end) trace ->
     (0 <= progressPercent (run d trace))%Z /\
     0 <= progressFillWidth (run d trace)).
Proof.
  split; [| split].
  - intro data. split; [apply Math_min_le_r |]. split; [apply Math_min_id |].
    split; [| reflexivity].
    unfold progress_or_0. intros ->. reflexivity.
  - intro Hd.
    assert (H : display_ok at_most_100 (fun z => (z <= 100)%Z) (run d trace)).
    { apply run_ok; try assumption.
      - discriminate.
      - lia.
      - exact frame_at_most_100.
      - apply Forall_forall. intros e _. apply event_ok_at_most_100. }
    destruct H as (Hp & Hw & _). split; [exact Hp | exact Hw].
  - intros Hd Ht.
    assert (H : display_ok at_least_0 (fun z => (0 <= z)%Z) (run d trace)).
    { apply run_ok; try assumption.
      - discriminate.
      - lia.
      - exact frame_at_least_0.
      - eapply Forall_impl; [| exact Ht]. exact event_ok_at_least_0. }
    destruct H as (Hp & Hw & _). split; [exact Hp | exact Hw].
Qed.

Lemma displayed_percentage_bounds_witness :
  let d := run initial
               [Submit "https://youtu.be/abc123" "video" "best";
                SubmitSettles 0 (Responded true (Json accepted));
                Tick;
                StatusSettles 0 (Responded true (Json (downloading 250)));
                Elapse 150; Frame] in
  ((progressPercent d <= 100)%Z /\ progressFillWidth d <= 100) /\
  ((0 <= progressPercent d)%Z /\ 0 <= progressFillWidth d).
Proof.
  pose proof (displayed_percentage_bounds initial
                [Submit "https://youtu.be/abc123" "video" "best";
                 SubmitSettles 0 (Responded true (Json accepted));
                 Tick;
                 StatusSettles 0 (Responded true (Json (downloading 250)));
                 Elapse 150; Frame]) as (_ & Hhi & Hlo).
  split.
  - apply Hhi. repeat split; try discriminate; try lia; constructor.
  - apply Hlo.
    + repeat split; try discriminate; try lia; constructor.
    + repeat constructor. discriminate.
Defined.

(** ** Animations *)









Lemma run_app (d : downloader) (l1 l2 : list event) :
  run d (l1 ++ l2) = run (run d l1) l2.
Proof. unfold run. apply fold_left_app. Qed.




(* ================================================================== *)
(** * Further properties of the script *)

(** ** More on the validator *)

Lemma isValidYouTubeUrl_shape (url : string) :
  isValidYouTubeUrl url = true <-> locator_shape url.
Proof.
  unfold isValidYouTubeUrl. split.
  - destruct (is_empty url || is_empty (trim url)); [discriminate |].
    apply patterns_shape.
  - intro H. destruct (locator_shape_head url H) as (r & E).
    rewrite E at 1 2. cbn [is_empty].
    rewrite trim_not_empty by reflexivity. cbn [orb].
    now apply patterns_shape.
Qed.

Lemma locator_shape_extend (s t : string) :
  locator_shape s -> locator_shape (s ++ t).
Proof.
  intros [sc www id rest Hs Hw Hid | sc id rest Hs Hid
         | sc www id rest Hs Hw Hid | sc www id rest Hs Hw Hid];
    rewrite !append_assoc.
  - now apply watch_page_link.
  - now apply short_link.
  - now apply shorts_link.
  - now apply embed_link.
Qed.

(** X1. The patterns are not anchored at the end: whatever is appended to an
    accepted URL, the result is accepted too. *)
Theorem accepted_url_stays_accepted_when_extended (url rest : string) :
  isValidYouTubeUrl url = true -> isValidYouTubeUrl (url ++ rest) = true.
Proof.
  intro H. apply isValidYouTubeUrl_shape. apply locator_shape_extend.
  now apply isValidYouTubeUrl_shape.
Qed.

Lemma accepted_url_stays_accepted_when_extended_witness :
  isValidYouTubeUrl ("https://youtu.be/abc123" ++ "?t=10 and more") = true.
Proof.
  apply (accepted_url_stays_accepted_when_extended
           "https://youtu.be/abc123" "?t=10 and more").
  reflexivity.
Defined.

Lemma locator_shape_scheme (s : string) :
  locator_shape s -> exists r, s = "http://" ++ r \/ s = "https://" ++ r.
Proof.
  intros [sc www id rest [-> | ->] _ _ | sc id rest [-> | ->] _
         | sc www id rest [-> | ->] _ _ | sc www id rest [-> | ->] _ _];
    cbn; eexists; solve [left; reflexivity | right; reflexivity].
Qed.

(** X2. An accepted URL starts with "http://" or "https://" in lower case,
    at its very first character: the emptiness test trims the input, the
    patterns do not, so a URL with white space in front is rejected. *)
Theorem accepted_url_starts_with_the_scheme (url : string) :
  (isValidYouTubeUrl url = true ->
     exists r, url = "http://" ++ r \/ url = "https://" ++ r) /\
  (forall (c : ascii) (s : string),
     url = String c s -> c <> "h"%char -> isValidYouTubeUrl url = false).
Proof.
  split.
  - intro H. apply locator_shape_scheme. now apply isValidYouTubeUrl_shape.
  - intros c s -> Hc. apply not_true_is_false. intro H.
    apply isValidYouTubeUrl_shape in H.
    destruct (locator_shape_head _ H) as (r & E). congruence.
Qed.

Lemma accepted_url_starts_with_the_scheme_witness :
  (exists r, "https://youtu.be/abc123" = "http://" ++ r
             \/ "https://youtu.be/abc123" = "https://" ++ r) /\
  isValidYouTubeUrl " https://youtu.be/abc123" = false /\
  isValidYouTubeUrl "HTTPS://youtu.be/abc123" = false.
Proof.
  split; [| split].
  - apply (proj1 (accepted_url_starts_with_the_scheme "https://youtu.be/abc123")).
    reflexivity.
  - apply (proj2 (accepted_url_starts_with_the_scheme " https://youtu.be/abc123")
             " "%char "https://youtu.be/abc123"); [reflexivity | discriminate].
  - apply (proj2 (accepted_url_starts_with_the_scheme "HTTPS://youtu.be/abc123")
             "H"%char "TTPS://youtu.be/abc123"); [reflexivity | discriminate].
Defined.

(** X3. The test for an empty or blank input never decides the outcome: the
    validator returns what the four patterns return. *)
Theorem emptiness_test_is_redundant (url : string) :
  isValidYouTubeUrl url = existsb (fun pattern => regex_test pattern url) patterns.
Proof.
  destruct (existsb (fun pattern => regex_test pattern url) patterns) eqn:E.
  - apply isValidYouTubeUrl_shape. now apply patterns_shape.
  - unfold isValidYouTubeUrl. rewrite E.
    now destruct (is_empty url || is_empty (trim url)).
Qed.

(** ** More on formatting *)







Lemma append_not_empty (a : string) (c : ascii) (b : string) :
  is_empty (a ++ String c b) = false.
Proof. now destruct a. Qed.

Lemma formatTime_not_empty (seconds : option Q) :
  is_empty (formatTime seconds) = false.
Proof.
  unfold formatTime. destruct seconds as [s |]; [| reflexivity].
  destruct (num_falsy (Some s) || Qltb s 0); [reflexivity |].
  destruct (Qltb s 60); [apply append_not_empty |].
  destruct (Qltb s 3600); apply append_not_empty.
Qed.

Lemma formatSpeed_not_empty (bytesPerSecond : option Q) :
  is_empty (formatSpeed bytesPerSecond) = false.
Proof.
  unfold formatSpeed. destruct bytesPerSecond as [b |]; [| reflexivity].
  destruct (num_falsy (Some b)); [reflexivity |].
  destruct (speed_loop (length units) b 0) as (sp, i).
  apply append_not_empty.
Qed.

(** X5. The info line of [updateProgress] is empty exactly when the
    snapshot has no speed or a speed that is not positive.  With a positive
    speed it is the formatted speed, followed, when the snapshot has a
    non-zero eta, by the separator, the formatted eta and " remaining"; a
    negative eta is shown as "0s remaining". *)
Theorem info_line_follows_the_speed (data : snapshot) :
  (info_text data = "" <->
     match speed data with Some sp => sp <= 0 | None => True end) /\
  (forall sp : Q, speed data = Some sp -> 0 < sp ->
     (num_falsy (eta data) = true -> info_text data = formatSpeed (Some sp)) /\
     (num_falsy (eta data) = false ->
        info_text data
        = formatSpeed (Some sp) ++ separator ++ formatTime (eta data)
          ++ " remaining") /\
     (forall e : Q, eta data = Some e -> e < 0 ->
        info_text data
        = formatSpeed (Some sp) ++ separator ++ "0s remaining")).
Proof.
  assert (Hpos : forall sp, 0 < sp ->
            negb (num_falsy (Some sp)) && Qltb 0 sp = true).
  { intros sp H. cbn [num_falsy].
    destruct (Qeq_bool sp 0) eqn:E; [apply Qeq_bool_eq in E; lra |].
    cbn [negb andb]. now apply Qltb_lt. }
  assert (Hfull : forall sp, speed data = Some sp -> 0 < sp ->
            info_text data
            = if num_falsy (eta data) then formatSpeed (Some sp)
              else formatSpeed (Some sp) ++ separator ++ formatTime (eta data)
                   ++ " remaining").
  { intros sp Hs H. unfold info_text. rewrite Hs, (Hpos sp H).
    destruct (num_falsy (eta data)); [reflexivity |].
    now rewrite formatTime_not_empty. }
  split.
  - destruct (speed data) as [sp |] eqn:Hs.
    + destruct (Qlt_le_dec 0 sp) as [H | H].
      * rewrite (Hfull sp eq_refl H). split; [| intro; lra].
        intro E. exfalso.
        assert (F : is_empty "" = false); [| discriminate F].
        rewrite <- E at 1.
        destruct (num_falsy (eta data)).
        -- apply formatSpeed_not_empty.
        -- pose proof (formatSpeed_not_empty (Some sp)) as N.
           destruct (formatSpeed (Some sp)); [discriminate N | reflexivity].
      * split; [intros _; exact H | intros _].
        unfold info_text. rewrite Hs.
        assert (F : Qltb 0 sp = false) by now apply Qltb_ge.
        rewrite F, andb_false_r. reflexivity.
    + split; [intros _; exact I | intros _].
      unfold info_text. now rewrite Hs.
  - intros sp Hs H. rewrite (Hfull sp Hs H). split; [| split].
    + now intros ->.
    + now intros ->.
    + intros e He Hneg. rewrite He.
      assert (F : num_falsy (Some e) = false).
      { cbn. destruct (Qeq_bool e 0) eqn:E; [| reflexivity].
        apply Qeq_bool_eq in E. lra. }
      rewrite F. unfold formatTime. rewrite F.
      rewrite (proj2 (Qltb_lt e 0) Hneg). reflexivity.
Qed.

Lemma info_line_follows_the_speed_witness :
  info_text (downloading 40)
  = formatSpeed (Some 1048576) ++ separator ++ formatTime (Some 30)
    ++ " remaining".
Proof.
  destruct (info_line_follows_the_speed (downloading 40)) as (_ & H).
  destruct (H 1048576 eq_refl) as (_ & H2 & _); [reflexivity |].
  apply H2. reflexivity.
Defined.

(** ** More on animations *)

Lemma Math_min_mono (a b c : Q) : a <= b -> Math_min a c <= Math_min b c.
Proof.
  intro H. apply Math_min_glb.
  - unfold Math_min. destruct (Qle_bool a c) eqn:E; [exact H |].
    assert (F : Qltb c a = true) by (unfold Qltb; now rewrite E).
    apply Qltb_lt in F. lra.
  - apply Math_min_le_r.
Qed.

Lemma cube_mono (x y : Q) : x <= y -> x * x * x <= y * y * y.
Proof.
  intro H.
  assert (H1 : 0 <= y - x) by lra.
  assert (H2 : 0 <= x * x + x * y + y * y) by nra.
  pose proof (Qmult_le_0_compat _ _ H1 H2) as H3.
  assert (E : (y - x) * (x * x + x * y + y * y) == y * y * y - x * x * x)
    by ring.
  rewrite E in H3. lra.
Qed.

Lemma easeOut_mono (p q : Q) : p <= q -> easeOut p <= easeOut q.
Proof.
  intro H. unfold easeOut, Math_pow3.
  pose proof (cube_mono (1 - q) (1 - p) ltac:(lra)). lra.
Qed.

Lemma anim_progress_mono (a : animation) (t1 t2 : Q) :
  t1 <= t2 -> anim_progress a t1 <= anim_progress a t2.
Proof.
  intro H. unfold anim_progress. apply Math_min_mono.
  unfold Qdiv. apply Qmult_le_compat_r; [lra | discriminate].
Qed.

(** X6. Within one animation the number written never turns back: from one
    frame to a later one it does not decrease when the target is above the
    start, and does not increase when the target is below it. *)
Theorem animation_is_monotone (a : animation) (t1 t2 : Q) :
  t1 <= t2 ->
  (startPercent a <= targetPercent a ->
     (currentPercent a t1 <= currentPercent a t2)%Z) /\
  (targetPercent a <= startPercent a ->
     (currentPercent a t2 <= currentPercent a t1)%Z).
Proof.
  intro Ht.
  pose proof (easeOut_mono _ _ (anim_progress_mono a t1 t2 Ht)) as He.
  unfold currentPercent, Math_round.
  generalize dependent (easeOut (anim_progress a t1)). intros e1.
  generalize (easeOut (anim_progress a t2)). intros e2 He.
  generalize (startPercent a) (targetPercent a). intros s g.
  split; intro H; apply Qfloor_resp_le.
  - pose proof (Qmult_le_0_compat (g - s) (e2 - e1) ltac:(lra) ltac:(lra)) as M.
    assert (E : (g - s) * (e2 - e1) == (g - s) * e2 - (g - s) * e1) by ring.
    rewrite E in M. lra.
  - pose proof (Qmult_le_0_compat (s - g) (e2 - e1) ltac:(lra) ltac:(lra)) as M.
    assert (E : (s - g) * (e2 - e1) == (g - s) * e1 - (g - s) * e2) by ring.
    rewrite E in M. lra.
Qed.

Lemma animation_is_monotone_witness :
  let a := {| startPercent := 0; targetPercent := 40; startTime := 0 |} in
  (currentPercent a 100 <= currentPercent a 200)%Z.
Proof.
  apply (proj1 (animation_is_monotone
                  {| startPercent := 0; targetPercent := 40; startTime := 0 |}
                  100 200 ltac:(discriminate))).
  discriminate.
Defined.

(** ** Frames and the clock leave the controller alone *)

Lemma control_animate (a : animation) (t : Q) (d : downloader) :
  control (animate a t d) = control d.
Proof. unfold animate. now destruct (Qltb (anim_progress a t) 1). Qed.

Lemma control_frame_callbacks (l : list animation) (d : downloader) :
  control (fold_left (fun d a => animate a (now d) d) l d) = control d.
Proof.
  revert d. induction l as [| a l IH]; intros d; [reflexivity |].
  cbn [fold_left]. rewrite IH. apply control_animate.
Qed.

Lemma control_clock (d : downloader) (e : event) :
  clock_event e -> control (step d e) = control d.
Proof.
  destruct e as [| | | | | dt]; try contradiction; intros _; cbn [step].
  - unfold run_frame. now rewrite control_frame_callbacks.
  - now destruct (Qle_bool 0 dt).
Qed.

Lemma clock_event_dec (e : event) : clock_event e \/ ~ clock_event e.
Proof. destruct e; cbn; tauto. Qed.

(** ** Stopping and resetting *)

Lemma stopPolling_idle (d : downloader) :
  pollInterval d = None -> stopPolling d = d.
Proof. intro H. unfold stopPolling. now rewrite H. Qed.

(** X7. [stopPolling] and [resetUI] can be repeated without effect: the
    second call changes nothing.  After [resetUI] there is no task and no
    timer, the display is back at 0, and a tick of a timer does nothing. *)
Theorem stop_and_reset_are_idempotent (d : downloader) :
  stopPolling (stopPolling d) = stopPolling d /\
  resetUI (resetUI d) = resetUI d /\
  currentTaskId (resetUI d) = None /\
  pollInterval (resetUI d) = None /\
  shown (resetUI d) = (0%Z, 0, 0, frameCallbacks d, now d) /\
  step (resetUI d) Tick = resetUI d.
Proof.
  split; [| split; [| split; [| split; [| split]]]].
  - apply stopPolling_idle. apply stopPolling_pollInterval.
  - unfold resetUI at 1.
    rewrite stopPolling_idle by exact (resetUI_pollInterval d).
    unfold resetUI, stopPolling.
    match goal with
    | |- context [match ?p with _ => _ end] => destruct p
    end; reflexivity.
  - apply resetUI_currentTaskId.
  - apply resetUI_pollInterval.
  - apply shown_resetUI.
  - apply step_Tick_stopped. apply resetUI_pollInterval.
Qed.

(** ** More on submission *)

(** X8. An invalid URL goes no further than the validator: no request is
    sent, the task, the timer and the display are left as they are (nothing
    is reset), and the error view asks for a valid URL. *)
Theorem invalid_url_is_stopped_at_the_door
  (d : downloader) (url formatType quality : string) :
  isValidYouTubeUrl url = false ->
  let d' := step d (Submit url formatType quality) in
  submissions d' = submissions d /\
  statusFetches d' = statusFetches d /\
  currentTaskId d' = currentTaskId d /\
  pollInterval d' = pollInterval d /\
  submitDisabled d' = submitDisabled d /\
  shown d' = shown d /\
  (submitDisabled d = false ->
     visible d' = ErrorContainer /\
     errorMessage d' = "Please enter a valid YouTube URL" /\
     errorsShown d' = (errorsShown d ++ ["Please enter a valid YouTube URL"])%list).
Proof.
  intros Hv d'. subst d'. cbn [step]. unfold handleSubmit. rewrite Hv. cbn [negb].
  destruct (submitDisabled d) eqn:E.
  - repeat split; congruence.
  - repeat split; solve [reflexivity | now symmetry].
Qed.

Lemma invalid_url_is_stopped_at_the_door_witness :
  let d' := step initial (Submit "https://vimeo.com/12345" "video" "best") in
  submissions d' = [] /\ visible d' = ErrorContainer.
Proof.
  pose proof (invalid_url_is_stopped_at_the_door
                initial "https://vimeo.com/12345" "video" "best" eq_refl) as H.
  cbv zeta in H. destruct H as (Hs & _ & _ & _ & _ & _ & He).
  split; [exact Hs |]. apply (He eq_refl).
Defined.

Lemma startPolling_pollInterval (d : downloader) :
  pollInterval (startPolling d) = Some (S (timersCreated d)).
Proof. unfold startPolling. now destruct (pollInterval d). Qed.

Lemma startPolling_control (d : downloader) :
  control (startPolling d)
  = (currentTaskId d, Some (S (timersCreated d)), visible d, downloadHref d,
     submitDisabled d, statusFetches d, submissions d,
     errorMessage d, resultFilename d, errorsShown d).
Proof. unfold startPolling. now destruct (pollInterval d). Qed.

Lemma stopPolling_control (d : downloader) :
  control (stopPolling d)
  = (currentTaskId d, None, visible d, downloadHref d,
     submitDisabled d, statusFetches d, submissions d,
     errorMessage d, resultFilename d, errorsShown d).
Proof.
  unfold stopPolling. destruct (pollInterval d) eqn:E; [reflexivity |].
  unfold control. now rewrite E.
Qed.

Lemma resetUI_control (d : downloader) :
  control (resetUI d)
  = (None, None, NoContainer, downloadHref d,
     submitDisabled d, statusFetches d, submissions d,
     errorMessage d, resultFilename d, errorsShown d).
Proof. unfold resetUI. now rewrite stopPolling_control. Qed.

(** The state after a valid submission has been answered. *)
Lemma submit_then_settle
  (d : downloader) (url formatType quality : string)
  (r : fetch_result submit_body) :
  submitDisabled d = false ->
  isValidYouTubeUrl url = true ->
  run d [Submit url formatType quality; SubmitSettles (length (submissions d)) r]
  = submit_continue r
      (set_submissions (submissions d) (setLoadingState true (resetUI d))).
Proof.
  intros Hd Hv. cbn [run fold_left].
  rewrite (step_Submit_valid d url formatType quality Hd Hv).
  rewrite step_SubmitSettles by (fields; rewrite length_app; cbn [length]; lia).
  fields. now rewrite remove_nth_snoc.
Qed.

(** X9. A valid submission answered with success and a task id puts the
    controller in its polling state: the id is stored, the progress view is
    up with the display reset to 0, the submit button is disabled, a fresh
    timer runs, and its first tick asks for the status of that task. *)
Theorem accepted_submission_starts_polling
  (d : downloader) (url formatType quality : string) (data : submit_body)
  (c : ascii) (id : string) :
  submitDisabled d = false ->
  isValidYouTubeUrl url = true ->
  task_id data = Some (String c id) ->
  let d' := run d [Submit url formatType quality;
                   SubmitSettles (length (submissions d))
                                 (Responded true (Json data))] in
  control d'
  = (Some (String c id), Some (S (timersCreated d)), ProgressContainer,
     downloadHref d, true, statusFetches d, submissions d,
     errorMessage d, resultFilename d, errorsShown d) /\
  shown d' = (0%Z, 0, 0, frameCallbacks d, now d) /\
  statusFetches (step d' Tick) = (statusFetches d ++ [String c id])%list.
Proof.
  intros Hd Hv Hid d'. subst d'. rewrite (submit_then_settle d _ _ _ _ Hd Hv).
  cbn [submit_continue]. rewrite Hid.
  pose proof (resetUI_control d) as Hc. pose proof (shown_resetUI d) as Hs.
  assert (Ht : timersCreated (resetUI d) = timersCreated d).
  { unfold resetUI. by_stopPolling. }
  generalize dependent (resetUI d). intros r Hc Hs Ht.
  unfold control in Hc. injection Hc as C1 C2 C3 C4 C5 C6 C7 C8 C9 C10.
  unfold shown in Hs. injection Hs as S1 S2 S3 S4 S5.
  assert (Hctl : control (startPolling
                   (showProgress
                      (set_currentTaskId (Some (String c id))
                         (set_submissions (submissions d) (setLoadingState true r)))))
                 = (Some (String c id), Some (S (timersCreated d)),
                    ProgressContainer, downloadHref d, true, statusFetches d,
                    submissions d, errorMessage d, resultFilename d,
                    errorsShown d)).
  { rewrite startPolling_control. fields. now rewrite C4, C6, C8, C9, C10, Ht. }
  split; [exact Hctl |]. split.
  - rewrite shown_startPolling. unfold shown. fields.
    now rewrite S1, S2, S3, S4, S5.
  - match type of Hctl with control ?X = _ => generalize dependent X end.
    intros X Hctl.
    unfold control in Hctl. injection Hctl as D1 D2 D3 D4 D5 D6 D7 D8 D9 D10.
    rewrite (step_Tick_active _ _ c id D2 D1). fields. now rewrite D6.
Qed.

Lemma accepted_submission_starts_polling_witness :
  let d' := run initial [Submit "https://youtu.be/abc123" "video" "best";
                         SubmitSettles 0 (Responded true (Json accepted))] in
  control d'
  = (Some "t1", Some 1%nat, ProgressContainer, None, true, [], [], "", "", []) /\
  statusFetches (step d' Tick) = ["t1"].
Proof.
  pose proof (accepted_submission_starts_polling
                initial "https://youtu.be/abc123" "video" "best" accepted
                "t" "1" eq_refl eq_refl eq_refl) as H.
  cbv zeta in H. destruct H as (Hc & _ & Ht).
  split; [exact Hc | exact Ht].
Defined.

(** X10. Whichever way a valid submission fails (the request is rejected,
    the body cannot be read, or the response is not a success), the error
    view shows the corresponding message, the submit button is enabled
    again, and there is no task, no timer and no new status request. *)
Theorem failed_submission_gives_control_back
  (d : downloader) (url formatType quality : string)
  (r : fetch_result submit_body) (message : string) :
  submitDisabled d = false ->
  isValidYouTubeUrl url = true ->
  failure_shown r = Some message ->
  let d' := run d [Submit url formatType quality;
                   SubmitSettles (length (submissions d)) r] in
  control d'
  = (None, None, ErrorContainer, downloadHref d, false,
     statusFetches d, submissions d, message, resultFilename d,
     (errorsShown d ++ [message])%list).
Proof.
  intros Hd Hv Hm d'. subst d'. rewrite (submit_then_settle d _ _ _ _ Hd Hv).
  pose proof (resetUI_control d) as Hc.
  generalize dependent (resetUI d). intros x Hc.
  unfold control in Hc. injection Hc as C1 C2 C3 C4 C5 C6 C7 C8 C9 C10.
  assert (H : submit_continue r
                (set_submissions (submissions d) (setLoadingState true x))
              = setLoadingState false
                  (showError message
                     (set_submissions (submissions d) (setLoadingState true x)))).
  { destruct r as [m | [|] [data | m]]; cbn in Hm; try discriminate Hm;
      injection Hm as <-; reflexivity. }
  rewrite H. unfold control. fields.
  now rewrite C1, C2, C4, C6, C9, C10.
Qed.

Lemma failed_submission_gives_control_back_witness :
  let d' := run initial [Submit "https://youtu.be/abc123" "video" "best";
                         SubmitSettles 0 (Rejected "Failed to fetch")] in
  control d'
  = (None, None, ErrorContainer, None, false, [], [], "Failed to fetch", "",
     ["Failed to fetch"]).
Proof.
  exact (failed_submission_gives_control_back
           initial "https://youtu.be/abc123" "video" "best"
           (Rejected "Failed to fetch") "Failed to fetch"
           eq_refl eq_refl eq_refl).
Defined.

Lemma locked_of_control (d1 d2 : downloader) :
  control d1 = control d2 -> locked d2 -> locked d1.
Proof.
  unfold control, locked. intros [= _ E2 E3 _ E5 E6 E7 _ _ _].
  now rewrite E2, E3, E5, E6, E7.
Qed.

Lemma locked_step (d : downloader) (e : event) : locked d -> locked (step d e).
Proof.
  intros Hl. destruct (clock_event_dec e) as [Hc | Hc].
  - apply (locked_of_control _ d); [now apply control_clock | exact Hl].
  - destruct Hl as (Hd & Hp & Hf & Hs & Hv).
    assert (E : step d e = d).
    { destruct e as [url f q | i r | | i r | |]; cbn [step].
      - now rewrite Hd.
      - rewrite Hs. now destruct i.
      - now rewrite Hp.
      - rewrite Hf. now destruct i.
      - now elim Hc.
      - now elim Hc. }
    rewrite E. repeat split; assumption.
Qed.

Lemma locked_run (trace : list event) (d : downloader) :
  locked d -> locked (run d trace).
Proof.
  revert d. induction trace as [| e trace IH]; intros d Hl; [exact Hl |].
  apply IH. now apply locked_step.
Qed.

(** X11. A success answer that carries no task id (or an empty one) leaves
    the page stuck: the progress view stays up with the submit button
    disabled, the first tick stops the timer without sending anything, and
    whatever happens afterwards the button stays disabled and nothing is
    polled. *)
Theorem missing_task_id_locks_the_page
  (d : downloader) (url formatType quality : string) (data : submit_body)
  (trace : list event) :
  submitDisabled d = false ->
  isValidYouTubeUrl url = true ->
  statusFetches d = [] ->
  submissions d = [] ->
  str_truthy (task_id data) = false ->
  let d' := run d ([Submit url formatType quality;
                    SubmitSettles 0 (Responded true (Json data));
                    Tick] ++ trace) in
  submitDisabled d' = true /\
  pollInterval d' = None /\
  statusFetches d' = [] /\
  submissions d' = [] /\
  visible d' = ProgressContainer.
Proof.
  intros Hd Hv Hf Hs Hid d'. subst d'. rewrite run_app.
  apply locked_run.
  change [Submit url formatType quality;
          SubmitSettles 0 (Responded true (Json data)); Tick]
    with ([Submit url formatType quality;
           SubmitSettles 0 (Responded true (Json data))] ++ [Tick])%list.
  rewrite run_app.
  replace 0%nat with (length (submissions d)) by now rewrite Hs.
  rewrite (submit_then_settle d _ _ _ _ Hd Hv). cbn [submit_continue].
  pose proof (resetUI_control d) as Hc.
  generalize dependent (resetUI d). intros x Hc.
  unfold control in Hc. injection Hc as C1 C2 C3 C4 C5 C6 C7 C8 C9 C10.
  match goal with |- locked (run (startPolling ?Y) _) => set (X := Y) end.
  pose proof (startPolling_control X) as Hc.
  generalize dependent (startPolling X). intros Z Hc.
  unfold control in Hc. injection Hc as D1 D2 D3 D4 D5 D6 D7 D8 D9 D10.
  cbn [run fold_left step]. rewrite D2. unfold tick. rewrite D1.
  subst X. fields.
  assert (E : match task_id data with
              | Some (String c r) =>
                  set_statusFetches (statusFetches Z ++ [String c r]) Z
              | _ => stopPolling Z
              end = stopPolling Z).
  { destruct (task_id data) as [[| c r] |]; [reflexivity | discriminate Hid
                                             | reflexivity]. }
  rewrite E. pose proof (stopPolling_control Z) as Hc.
  generalize dependent (stopPolling Z). intros W _ Hc.
  unfold control in Hc. injection Hc as F1 F2 F3 F4 F5 F6 F7 F8 F9 F10.
  unfold locked. rewrite F2, F3, F5, F6, F7, D3, D5, D6, D7.
  rewrite C6, Hf, Hs. repeat split.
Qed.

Lemma missing_task_id_locks_the_page_witness :
  let d' := run initial
                ([Submit "https://youtu.be/abc123" "video" "best";
                  SubmitSettles 0 (Responded true (Json empty_message));
                  Tick]
                 ++ [Tick; Submit "https://youtu.be/abc123" "video" "best";
                     Elapse 500; Frame; Tick]) in
  submitDisabled d' = true /\ pollInterval d' = None /\
  statusFetches d' = [] /\ submissions d' = [] /\
  visible d' = ProgressContainer.
Proof.
  exact (missing_task_id_locks_the_page
           initial "https://youtu.be/abc123" "video" "best" empty_message
           [Tick; Submit "https://youtu.be/abc123" "video" "best";
            Elapse 500; Frame; Tick]
           eq_refl eq_refl eq_refl eq_refl eq_refl).
Defined.

(** ** More on the poller *)

(** What a snapshot leaves of the controller once [updateProgress] has run
    and the timer has been stopped. *)
Lemma stopped_after_update (data : snapshot) (d : downloader) :
  control (stopPolling (updateProgress data d))
  = (currentTaskId d, None, visible d, downloadHref d, submitDisabled d,
     statusFetches d, submissions d, errorMessage d, resultFilename d,
     errorsShown d).
Proof. rewrite stopPolling_control. reflexivity. Qed.

(** X12. A snapshot whose status is "completed" ends the polling: the timer
    is stopped, the result view shows the file name of the snapshot, or
    "Download ready" when it has none, its link carries the current task id,
    the submit button is enabled, and later ticks do nothing. *)
Theorem completed_snapshot_shows_the_result
  (d : downloader) (i : nat) (data : snapshot) :
  (i < length (statusFetches d))%nat ->
  status data = Some "completed" ->
  let d' := step d (StatusSettles i (Responded true (Json data))) in
  control d'
  = (currentTaskId d, None, ResultContainer, currentTaskId d, false,
     remove_nth i (statusFetches d), submissions d, errorMessage d,
     str_or (filename data) "Download ready", errorsShown d) /\
  step d' Tick = d'.
Proof.
  intros Hi Hs d'. subst d'. rewrite (step_StatusSettles d i _ Hi).
  rewrite (poll_continue_completed _ _ Hs).
  match goal with
  | |- context [stopPolling (updateProgress data ?X)] =>
      pose proof (stopped_after_update data X) as Hc;
      generalize dependent (stopPolling (updateProgress data X))
  end.
  intros Y Hc. unfold control in Hc.
  injection Hc as C1 C2 C3 C4 C5 C6 C7 C8 C9 C10.
  split.
  - unfold control. fields. now rewrite C1, C2, C6, C7, C8, C10.
  - apply step_Tick_stopped. fields. exact C2.
Qed.

Lemma completed_snapshot_shows_the_result_witness :
  let d' := step polling_t1 (StatusSettles 0 (Responded true (Json completed))) in
  control d'
  = (Some "t1", None, ResultContainer, Some "t1", false, [], [], "",
     "abc123.mp4", []).
Proof.
  pose proof (completed_snapshot_shows_the_result polling_t1 0 completed) as H.
  cbv zeta in H. destruct H as (Hc & _).
  - vm_compute. lia.
  - reflexivity.
  - exact Hc.
Defined.

Lemma poll_continue_error (data : snapshot) (d : downloader) :
  status data = Some "error" ->
  poll_continue (Responded true (Json data)) d
  = setLoadingState false
      (showError (str_or (error data) "Download failed")
                 (stopPolling (updateProgress data d))).
Proof.
  intro Hs. unfold poll_continue. rewrite Hs. reflexivity.
Qed.

(** X13. A snapshot whose status is "error" ends the polling: the timer is
    stopped, the error view shows the error text of the snapshot, or
    "Download failed" when it has none or an empty one, the submit button is
    enabled, and later ticks do nothing. *)
Theorem error_snapshot_shows_the_failure
  (d : downloader) (i : nat) (data : snapshot) :
  (i < length (statusFetches d))%nat ->
  status data = Some "error" ->
  let d' := step d (StatusSettles i (Responded true (Json data))) in
  control d'
  = (currentTaskId d, None, ErrorContainer, downloadHref d, false,
     remove_nth i (statusFetches d), submissions d,
     str_or (error data) "Download failed", resultFilename d,
     (errorsShown d ++ [str_or (error data) "Download failed"])%list) /\
  (error data = None \/ error data = Some "" ->
     errorMessage d' = "Download failed") /\
  step d' Tick = d'.
Proof.
  intros Hi Hs d'. subst d'. rewrite (step_StatusSettles d i _ Hi).
  rewrite (poll_continue_error _ _ Hs).
  match goal with
  | |- context [stopPolling (updateProgress data ?X)] =>
      pose proof (stopped_after_update data X) as Hc;
      generalize dependent (stopPolling (updateProgress data X))
  end.
  intros Y Hc. unfold control in Hc.
  injection Hc as C1 C2 C3 C4 C5 C6 C7 C8 C9 C10.
  split; [| split].
  - unfold control. fields. now rewrite C1, C2, C4, C6, C7, C9, C10.
  - fields. intros [-> | ->]; reflexivity.
  - apply step_Tick_stopped. fields. exact C2.
Qed.

Lemma error_snapshot_shows_the_failure_witness :
  let data := {| status := Some "error"; progress := None; speed := None;
                 eta := None; filename := None; error := None |} in
  errorMessage (step polling_t1 (StatusSettles 0 (Responded true (Json data))))
  = "Download failed".
Proof.
  pose proof (error_snapshot_shows_the_failure polling_t1 0
                {| status := Some "error"; progress := None; speed := None;
                   eta := None; filename := None; error := None |}) as H.
  cbv zeta in H. destruct H as (_ & He & _).
  - vm_compute. lia.
  - reflexivity.
  - apply He. now left.
Defined.

(** X14. Only the exact status values "completed" and "error" end the
    polling.  A snapshot with any other status, or none, only updates the
    progress view: bar, label and info line; the timer, the task, the
    containers, the submit button and the error view are as before. *)
Theorem other_snapshots_keep_polling
  (d : downloader) (i : nat) (data : snapshot) :
  (i < length (statusFetches d))%nat ->
  is_terminal (status data) = false ->
  let d' := step d (StatusSettles i (Responded true (Json data))) in
  control d'
  = (currentTaskId d, pollInterval d, visible d, downloadHref d,
     submitDisabled d, remove_nth i (statusFetches d), submissions d,
     errorMessage d, resultFilename d, errorsShown d) /\
  progressFillWidth d' = Math_min (progress_or_0 data) 100 /\
  progressStatus d' = status_text (status data) /\
  progressInfo d' = info_text data.
Proof.
  intros Hi Ht d'. subst d'. rewrite (step_StatusSettles d i _ Hi).
  assert (E : forall x, poll_continue (Responded true (Json data)) x
                        = updateProgress data x).
  { intro x. unfold poll_continue, is_terminal in *.
    destruct (status data) as [st |]; [| reflexivity].
    apply orb_false_iff in Ht as [-> ->]. reflexivity. }
  rewrite E. repeat split.
Qed.

Lemma other_snapshots_keep_polling_witness :
  let data := {| status := Some "failed"; progress := Some 40; speed := None;
                 eta := None; filename := None; error := Some "boom" |} in
  let d' := step polling_t1 (StatusSettles 0 (Responded true (Json data))) in
  control d'
  = (Some "t1", Some 1%nat, ProgressContainer, None, true, [], [], "", "", []) /\
  progressStatus d' = "failed".
Proof.
  pose proof (other_snapshots_keep_polling polling_t1 0
                {| status := Some "failed"; progress := Some 40; speed := None;
                   eta := None; filename := None; error := Some "boom" |}) as H.
  cbv zeta in H. destruct H as (Hc & _ & Hl & _).
  - vm_compute. lia.
  - reflexivity.
  - split; [exact Hc | exact Hl].
Defined.

(** ** Invariants of the controller *)

Lemma poll_continue_keeps (r : fetch_result snapshot) (d : downloader) :
  statusFetches (poll_continue r d) = statusFetches d /\
  submissions (poll_continue r d) = submissions d /\
  currentTaskId (poll_continue r d) = currentTaskId d.
Proof.
  assert (Hstop : forall (f : downloader -> downloader) x,
            (forall y, statusFetches (f y) = statusFetches y /\
                       submissions (f y) = submissions y /\
                       currentTaskId (f y) = currentTaskId y) ->
            statusFetches (f (stopPolling x)) = statusFetches x /\
            submissions (f (stopPolling x)) = submissions x /\
            currentTaskId (f (stopPolling x)) = currentTaskId x).
  { intros f x Hf. destruct (Hf (stopPolling x)) as (-> & -> & ->).
    now rewrite stopPolling_statusFetches, stopPolling_submissions,
      stopPolling_currentTaskId. }
  destruct r as [m | [|] [data | m]]; cbn [poll_continue];
    try (repeat split; reflexivity).
  - destruct (status data) as [st |]; [| repeat split; reflexivity].
    destruct (String.eqb st "completed").
    + apply (Hstop (fun y => setLoadingState false (showResult data y))
                   (updateProgress data d)).
      intro y. repeat split.
    + destruct (String.eqb st "error"); [| repeat split; reflexivity].
      apply (Hstop (fun y => setLoadingState false
                               (showError (str_or (error data) "Download failed") y))
                   (updateProgress data d)).
      intro y. repeat split.
  - apply (Hstop (fun y => setLoadingState false
                             (showError "Download task expired" y)) d).
    intro y. repeat split.
Qed.

Lemma submit_continue_statusFetches
  (r : fetch_result submit_body) (d : downloader) :
  statusFetches (submit_continue r d) = statusFetches d.
Proof.
  destruct r as [m | [|] [data | m]]; cbn [submit_continue]; try reflexivity.
  unfold startPolling.
  match goal with
  | |- context [match ?p with _ => _ end] => destruct p
  end; reflexivity.
Qed.

Lemma Forall_remove_nth {A : Type} (P : A -> Prop) (i : nat) (l : list A) :
  Forall P l -> Forall P (remove_nth i l).
Proof.
  revert i. induction l as [| x l IH]; intros i H; [now destruct i |].
  inversion H as [| ? ? Hx Hl]; subst.
  destruct i as [| i]; cbn; [exact Hl |]. constructor; [exact Hx | now apply IH].
Qed.

Lemma statusFetches_step (d : downloader) (e : event) :
  statusFetches (step d e) = statusFetches d \/
  (exists c r, statusFetches (step d e)
               = (statusFetches d ++ [String c r])%list) \/
  (exists i, statusFetches (step d e) = remove_nth i (statusFetches d)).
Proof.
  destruct (clock_event_dec e) as [Hc | Hc].
  { left. pose proof (control_clock d e Hc) as H. unfold control in H.
    now injection H. }
  destruct e as [url f q | i r | | i r | |]; cbn [step];
    try (now elim Hc).
  - left. destruct (submitDisabled d); [reflexivity |]. unfold handleSubmit.
    destruct (isValidYouTubeUrl url); cbn [negb]; [| reflexivity].
    fields. apply resetUI_statusFetches.
  - left. destruct (nth_error (submissions d) i); [| reflexivity].
    now rewrite submit_continue_statusFetches.
  - destruct (pollInterval d); [| now left]. unfold tick.
    destruct (currentTaskId d) as [[| c r] |].
    + left. apply stopPolling_statusFetches.
    + right. left. now exists c, r.
    + left. apply stopPolling_statusFetches.
  - destruct (nth_error (statusFetches d) i); [| now left].
    right. right. exists i.
    now rewrite (proj1 (poll_continue_keeps r _)).
Qed.

(** X15. Every status request names a task: whatever the events, no request
    is ever sent for an empty or missing task id. *)
Theorem every_request_names_a_task (d : downloader) (trace : list event) :
  Forall (fun id => id <> "") (statusFetches d) ->
  Forall (fun id => id <> "") (statusFetches (run d trace)).
Proof.
  revert d. induction trace as [| e trace IH]; intros d H; [exact H |].
  apply IH.
  destruct (statusFetches_step d e) as [-> | [(c & r & ->) | (i & ->)]].
  - exact H.
  - apply Forall_app. split; [exact H |]. constructor; [discriminate | constructor].
  - now apply Forall_remove_nth.
Qed.

Lemma every_request_names_a_task_witness :
  let d := run initial
               [Submit "https://youtu.be/abc123" "video" "best";
                SubmitSettles 0 (Responded true (Json accepted));
                Tick; Tick; Elapse 500; Tick] in
  statusFetches d = ["t1"; "t1"; "t1"] /\
  Forall (fun id => id <> "") (statusFetches d).
Proof.
  split; [reflexivity |].
  apply (every_request_names_a_task initial). constructor.
Defined.

Lemma link_agrees_of_fields (d1 d2 : downloader) :
  visible d1 = visible d2 ->
  downloadHref d1 = downloadHref d2 ->
  currentTaskId d1 = currentTaskId d2 ->
  link_agrees d2 -> link_agrees d1.
Proof. unfold link_agrees. intros -> -> ->. auto. Qed.

Lemma link_agrees_stopPolling (d : downloader) :
  link_agrees d -> link_agrees (stopPolling d).
Proof.
  pose proof (stopPolling_control d) as H. unfold control in H.
  injection H as E1 _ E3 E4 _ _ _ _ _ _.
  now apply link_agrees_of_fields.
Qed.

Lemma link_agrees_step (d : downloader) (e : event) :
  link_agrees d -> link_agrees (step d e).
Proof.
  intro Hd. destruct (clock_event_dec e) as [Hc | Hc].
  { pose proof (control_clock d e Hc) as H. unfold control in H.
    injection H as E1 _ E3 E4 _ _ _ _ _ _.
    now apply (link_agrees_of_fields _ d). }
  destruct e as [url f q | i r | | i r | |]; cbn [step]; try (now elim Hc).
  - destruct (submitDisabled d); [exact Hd |]. unfold handleSubmit.
    destruct (isValidYouTubeUrl url); cbn [negb].
    + pose proof (resetUI_control d) as H. unfold control in H.
      injection H as _ _ E3 _ _ _ _ _ _ _.
      unfold link_agrees. fields. rewrite E3. discriminate.
    + unfold link_agrees. fields. discriminate.
  - destruct (nth_error (submissions d) i); [| exact Hd].
    destruct r as [m | [|] [data | m]]; cbn [submit_continue];
      try (unfold link_agrees; fields; discriminate).
    match goal with
    | |- link_agrees (startPolling ?X) =>
        pose proof (startPolling_control X) as H;
        generalize dependent (startPolling X)
    end.
    intros Y H. unfold control in H. injection H as _ _ E3 _ _ _ _ _ _ _.
    unfold link_agrees. rewrite E3. fields. discriminate.
  - destruct (pollInterval d); [| exact Hd]. unfold tick.
    destruct (currentTaskId d) as [[| c r] |] eqn:E.
    + now apply link_agrees_stopPolling.
    + unfold link_agrees. fields. exact Hd.
    + now apply link_agrees_stopPolling.
  - destruct (nth_error (statusFetches d) i); [| exact Hd].
    destruct r as [m | [|] [data | m]]; cbn [poll_continue];
      try exact Hd; try (unfold link_agrees; fields; discriminate).
    destruct (status data) as [st |]; [| exact Hd].
    destruct (String.eqb st "completed").
    + unfold link_agrees. fields. reflexivity.
    + destruct (String.eqb st "error"); [| exact Hd].
      unfold link_agrees. fields. discriminate.
Qed.

(** X16. While the result view is up, its link and the download button
    agree: the link carries the current task id, and a click goes to
    "/download/" followed by that id when there is one, and does nothing
    when there is none. *)
Theorem result_link_and_button_agree (d : downloader) (trace : list event) :
  link_agrees d ->
  visible (run d trace) = ResultContainer ->
  downloadHref (run d trace) = currentTaskId (run d trace) /\
  handleDownload (run d trace)
  = match downloadHref (run d trace) with
    | Some (String c r) => Some ("/download/" ++ String c r)
    | _ => None
    end.
Proof.
  intros Hd Hv.
  assert (H : link_agrees (run d trace)).
  { clear Hv. revert d Hd. induction trace as [| e trace IH]; intros d Hd;
      [exact Hd |].
    apply IH. now apply link_agrees_step. }
  specialize (H Hv). split; [exact H |].
  unfold handleDownload. now rewrite H.
Qed.

Lemma result_link_and_button_agree_witness :
  handleDownload
    (run initial
         [Submit "https://youtu.be/abc123" "video" "best";
          SubmitSettles 0 (Responded true (Json accepted));
          Tick;
          StatusSettles 0 (Responded true (Json completed))])
  = Some "/download/t1".
Proof.
  apply (result_link_and_button_agree initial
           [Submit "https://youtu.be/abc123" "video" "best";
            SubmitSettles 0 (Responded true (Json accepted));
            Tick;
            StatusSettles 0 (Responded true (Json completed))]).
  - intro H. discriminate H.
  - reflexivity.
Defined.
